(** * APDS-9960 ambient light driver: model and verified properties

    Shallow embedding of [modules/drivers/sensors/apds9960/apds9960.js].

    The class [Sensor] becomes a state record ([Machine]) threaded through a
    small state-and-exception monad.  A JavaScript exception leaves every
    mutation made before the [throw] in place, so a computation always
    returns the machine it reached, together with either a value or the
    exception.  The bus object [#io] is an injected capability: it is
    modelled by an oracle ([Transport]) which, given the transactions issued
    so far, decides whether the next one faults and what a read returns.

    Numbers handed to [configure] range over the integers ([Z]); [undefined]
    is [None].  Quotients computed by [sample] are kept as exact rationals
    (JavaScript rounds them to the nearest double, which is monotone and
    keeps 0 and 1 fixed). *)

From Stdlib Require Import ZArith List String Bool Lia QArith.
From Stdlib Require Import Strings.Byte.
From Stdlib Require Import RelationClasses.
Import ListNotations.
Local Open Scope Z_scope.

(** ** Register map (lines 26-38) *)

Module Register.
Definition AILTL : Z := 0x84.
Definition AIHTL : Z := 0x86.
Definition PERS : Z := 0x8C.
Definition ENABLE : Z := 0x80.
Definition ATIME : Z := 0x81.
Definition WTIME : Z := 0x83.
Definition CONTROLONE : Z := 0x8F.
Definition ID : Z := 0x92.
Definition STATUS : Z := 0x93.
Definition CDATAL : Z := 0x94.
Definition CDATAH : Z := 0x95.
End Register.

(** ** The bus as seen by the driver *)

(** One entry per call made on [#io] or [#monitor]. *)
Inductive Request : Type :=
| WriteUint8 (register value : Z)
| WriteUint16 (register value : Z)
| ReadUint8 (register : Z)
| ReadBuffer (register : Z) (byteLength : nat)
| CloseIO
| CloseMonitor.

(** The transport answers from the history of earlier requests.
    [acknowledge] is [false] when a write or a close faults; a read that
    faults answers [None]. *)
Record Transport : Type := {
  acknowledge : list Request -> Request -> bool;
  answerUint8 : list Request -> Z -> option byte;
  answerBuffer : list Request -> Z -> nat -> option (nat -> byte)
}.

Definition byteZ (b : byte) : Z := Z.of_N (Byte.to_N b).

(** ** Driver state *)

Module Enabled.
Record t : Type := {
  GEN : bool;
  PIEN : bool;
  AIEN : bool;
  WEN : bool;
  PEN : bool;
  AEN : bool;
  PON : bool
}.
Definition withAIEN (b : bool) (e : t) : t :=
  {| GEN := GEN e; PIEN := PIEN e; AIEN := b; WEN := WEN e;
     PEN := PEN e; AEN := AEN e; PON := PON e |}.
Definition withAEN (b : bool) (e : t) : t :=
  {| GEN := GEN e; PIEN := PIEN e; AIEN := AIEN e; WEN := WEN e;
     PEN := PEN e; AEN := b; PON := PON e |}.
Definition withPON (b : bool) (e : t) : t :=
  {| GEN := GEN e; PIEN := PIEN e; AIEN := AIEN e; WEN := WEN e;
     PEN := PEN e; AEN := AEN e; PON := b |}.
End Enabled.

(** [#configuration] (lines 48-61).  The four threshold and persistence
    properties do not exist until [configure] first stores them. *)
Module Configuration.
Record t : Type := {
  enabled : Enabled.t;
  alsIntegrationCycles : Z;
  alsGain : Z;
  proximityGain : Z;
  alsThresholdLow : option Z;
  alsThresholdHigh : option Z;
  alsThresholdPersistence : option Z;
  proximityThresholdPersistence : option Z
}.
Definition withEnabled (f : Enabled.t -> Enabled.t) (c : t) : t :=
  {| enabled := f (enabled c);
     alsIntegrationCycles := alsIntegrationCycles c;
     alsGain := alsGain c; proximityGain := proximityGain c;
     alsThresholdLow := alsThresholdLow c;
     alsThresholdHigh := alsThresholdHigh c;
     alsThresholdPersistence := alsThresholdPersistence c;
     proximityThresholdPersistence := proximityThresholdPersistence c |}.
Definition withAlsIntegrationCycles (v : Z) (c : t) : t :=
  {| enabled := enabled c;
     alsIntegrationCycles := v;
     alsGain := alsGain c; proximityGain := proximityGain c;
     alsThresholdLow := alsThresholdLow c;
     alsThresholdHigh := alsThresholdHigh c;
     alsThresholdPersistence := alsThresholdPersistence c;
     proximityThresholdPersistence := proximityThresholdPersistence c |}.
Definition withAlsGain (v : Z) (c : t) : t :=
  {| enabled := enabled c;
     alsIntegrationCycles := alsIntegrationCycles c;
     alsGain := v; proximityGain := proximityGain c;
     alsThresholdLow := alsThresholdLow c;
     alsThresholdHigh := alsThresholdHigh c;
     alsThresholdPersistence := alsThresholdPersistence c;
     proximityThresholdPersistence := proximityThresholdPersistence c |}.
Definition withProximityGain (v : Z) (c : t) : t :=
  {| enabled := enabled c;
     alsIntegrationCycles := alsIntegrationCycles c;
     alsGain := alsGain c; proximityGain := v;
     alsThresholdLow := alsThresholdLow c;
     alsThresholdHigh := alsThresholdHigh c;
     alsThresholdPersistence := alsThresholdPersistence c;
     proximityThresholdPersistence := proximityThresholdPersistence c |}.
Definition withAlsThresholdLow (v : Z) (c : t) : t :=
  {| enabled := enabled c;
     alsIntegrationCycles := alsIntegrationCycles c;
     alsGain := alsGain c; proximityGain := proximityGain c;
     alsThresholdLow := Some v;
     alsThresholdHigh := alsThresholdHigh c;
     alsThresholdPersistence := alsThresholdPersistence c;
     proximityThresholdPersistence := proximityThresholdPersistence c |}.
Definition withAlsThresholdHigh (v : Z) (c : t) : t :=
  {| enabled := enabled c;
     alsIntegrationCycles := alsIntegrationCycles c;
     alsGain := alsGain c; proximityGain := proximityGain c;
     alsThresholdLow := alsThresholdLow c;
     alsThresholdHigh := Some v;
     alsThresholdPersistence := alsThresholdPersistence c;
     proximityThresholdPersistence := proximityThresholdPersistence c |}.
Definition withAlsThresholdPersistence (v : Z) (c : t) : t :=
  {| enabled := enabled c;
     alsIntegrationCycles := alsIntegrationCycles c;
     alsGain := alsGain c; proximityGain := proximityGain c;
     alsThresholdLow := alsThresholdLow c;
     alsThresholdHigh := alsThresholdHigh c;
     alsThresholdPersistence := Some v;
     proximityThresholdPersistence := proximityThresholdPersistence c |}.
Definition withProximityThresholdPersistence (v : Z) (c : t) : t :=
  {| enabled := enabled c;
     alsIntegrationCycles := alsIntegrationCycles c;
     alsGain := alsGain c; proximityGain := proximityGain c;
     alsThresholdLow := alsThresholdLow c;
     alsThresholdHigh := alsThresholdHigh c;
     alsThresholdPersistence := alsThresholdPersistence c;
     proximityThresholdPersistence := Some v |}.
End Configuration.

(** The argument of [configure]: every recognised option may be absent. *)
Module Options.
Record t : Type := {
  enableALS : option bool;
  on : option bool;
  alsIntegrationCycles : option Z;
  alsGain : option Z;
  proximityGain : option Z;
  alsThresholdHigh : option Z;
  alsThresholdLow : option Z;
  alsThresholdPersistence : option Z;
  proximityThresholdPersistence : option Z
}.
End Options.

(** Private fields of a [Sensor] instance, together with what the outside
    world has seen of it: [wire] lists the requests issued so far, oldest
    first, and [traced] the counts printed by [trace].  [io] and [monitor]
    tell whether [#io] and [#monitor] hold an object. *)
Record Machine : Type := {
  io : bool;
  monitor : bool;
  alsBlock : list byte;
  maxCount : Z;
  configuration : Configuration.t;
  wire : list Request;
  traced : list Z
}.

Definition withIo (b : bool) (m : Machine) : Machine :=
  {| io := b; monitor := monitor m; alsBlock := alsBlock m;
     maxCount := maxCount m; configuration := configuration m;
     wire := wire m; traced := traced m |}.
Definition withMonitor (b : bool) (m : Machine) : Machine :=
  {| io := io m; monitor := b; alsBlock := alsBlock m;
     maxCount := maxCount m; configuration := configuration m;
     wire := wire m; traced := traced m |}.
Definition withAlsBlock (l : list byte) (m : Machine) : Machine :=
  {| io := io m; monitor := monitor m; alsBlock := l;
     maxCount := maxCount m; configuration := configuration m;
     wire := wire m; traced := traced m |}.
Definition withMaxCount (v : Z) (m : Machine) : Machine :=
  {| io := io m; monitor := monitor m; alsBlock := alsBlock m;
     maxCount := v; configuration := configuration m;
     wire := wire m; traced := traced m |}.
Definition withConfiguration (f : Configuration.t -> Configuration.t)
    (m : Machine) : Machine :=
  {| io := io m; monitor := monitor m; alsBlock := alsBlock m;
     maxCount := maxCount m; configuration := f (configuration m);
     wire := wire m; traced := traced m |}.
Definition issue (r : Request) (m : Machine) : Machine :=
  {| io := io m; monitor := monitor m; alsBlock := alsBlock m;
     maxCount := maxCount m; configuration := configuration m;
     wire := wire m ++ [r]; traced := traced m |}.
Definition print (v : Z) (m : Machine) : Machine :=
  {| io := io m; monitor := monitor m; alsBlock := alsBlock m;
     maxCount := maxCount m; configuration := configuration m;
     wire := wire m; traced := traced m ++ [v] |}.

(** Field initialisers of the class (lines 41-61), before the constructor
    body runs. *)
Definition initial : Machine :=
  {| io := false; monitor := false; alsBlock := [];
     maxCount := 1025;
     configuration :=
       {| Configuration.enabled :=
            {| Enabled.GEN := false; Enabled.PIEN := false;
               Enabled.AIEN := false; Enabled.WEN := false;
               Enabled.PEN := false; Enabled.AEN := false;
               Enabled.PON := false |};
          Configuration.alsIntegrationCycles := 1;
          Configuration.alsGain := 1;
          Configuration.proximityGain := 1;
          Configuration.alsThresholdLow := None;
          Configuration.alsThresholdHigh := None;
          Configuration.alsThresholdPersistence := None;
          Configuration.proximityThresholdPersistence := None |};
     wire := []; traced := [] |}.

(** ** Computations that may throw *)

Inductive Exn : Type :=
| Error (message : string)
| RangeError (message : string)
| TypeError          (* a method called on [undefined] *)
| TransportFault.    (* whatever the bus object throws *)

Inductive Completion (A : Type) : Type :=
| Returned (a : A)
| Thrown (e : Exn).
Arguments Returned {A} a.
Arguments Thrown {A} e.

Definition M (A : Type) : Type := Machine -> Completion A * Machine.

Definition ret {A} (a : A) : M A := fun m => (Returned a, m).
Definition throw {A} (e : Exn) : M A := fun m => (Thrown e, m).
Definition bind {A B} (c : M A) (k : A -> M B) : M B := fun m =>
  match c m with
  | (Returned a, m') => k a m'
  | (Thrown e, m') => (Thrown e, m')
  end.
Definition catch {A} (c : M A) (h : Exn -> M A) : M A := fun m =>
  match c m with
  | (Returned a, m') => (Returned a, m')
  | (Thrown e, m') => h e m'
  end.
Definition gets {A} (f : Machine -> A) : M A := fun m => (Returned (f m), m).
Definition modify (f : Machine -> Machine) : M unit :=
  fun m => (Returned tt, f m).

Declare Scope driver_scope.
Delimit Scope driver_scope with driver.
Notation "x <- c ;; k" := (bind c (fun x => k))
  (at level 61, c at next level, right associativity) : driver_scope.
Notation "c ;; k" := (bind c (fun _ => k))
  (at level 61, right associativity) : driver_scope.
Local Open Scope driver_scope.

(** [if (x !== undefined) { ... x ... }] *)
Definition whenDefined {A} (x : option A) (k : A -> M unit) : M unit :=
  match x with
  | Some v => k v
  | None => ret tt
  end.
Definition defined {A} (x : option A) : bool :=
  match x with Some _ => true | None => false end.
Definition when (b : bool) (c : M unit) : M unit :=
  if b then c else ret tt.

(** ** Calls on the bus object *)

(** A write or a close: [TypeError] when [#io] is [undefined]; otherwise the
    request goes on the wire and the transport decides whether it faults. *)
Definition transact (t : Transport) (r : Request) : M unit := fun m =>
  if io m then
    (if acknowledge t (wire m) r then Returned tt else Thrown TransportFault,
     issue r m)
  else (Thrown TypeError, m).

Definition writeUint8 (t : Transport) (register value : Z) : M unit :=
  transact t (WriteUint8 register value).
Definition writeUint16 (t : Transport) (register value : Z) : M unit :=
  transact t (WriteUint16 register value).

Definition readUint8 (t : Transport) (register : Z) : M byte := fun m =>
  if io m then
    (match answerUint8 t (wire m) register with
     | Some b => Returned b
     | None => Thrown TransportFault
     end, issue (ReadUint8 register) m)
  else (Thrown TypeError, m).

(** [#alsBlock] is allocated once, with 8 bytes (line 107). *)
Definition alsBlockLength : nat := 8.

(** [readBuffer(register, this.#alsBlock)] fills the whole block. *)
Definition readBuffer (t : Transport) (register : Z) : M unit := fun m =>
  if io m then
    match answerBuffer t (wire m) register alsBlockLength with
    | Some f =>
        (Returned tt,
         withAlsBlock (map f (seq 0 alsBlockLength))
           (issue (ReadBuffer register alsBlockLength) m))
    | None =>
        (Thrown TransportFault, issue (ReadBuffer register alsBlockLength) m)
    end
  else (Thrown TypeError, m).

(** [#monitor.close()] *)
Definition closeMonitor (t : Transport) : M unit := fun m =>
  (if acknowledge t (wire m) CloseMonitor
   then Returned tt else Thrown TransportFault,
   issue CloseMonitor m).

(** ** 32-bit operators of the language *)

Definition toInt32 (z : Z) : Z :=
  let w := z mod 2 ^ 32 in if w <? 2 ^ 31 then w else w - 2 ^ 32.
(** [undefined] and [NaN] both convert to 0. *)
Definition toInt32' (v : option Z) : Z :=
  match v with Some z => toInt32 z | None => 0 end.
Definition shl (v : option Z) (n : Z) : Z :=
  toInt32 (Z.shiftl (toInt32' v) (Z.land n 31)).
Definition bor (a : Z) (b : option Z) : Z :=
  Z.lor (toInt32 a) (toInt32' b).

(** [v === n] for a property [v] that may be [undefined]. *)
Definition strictlyEquals (v : option Z) (n : Z) : bool :=
  match v with Some z => z =? n | None => false end.

(** ** [apersFromCycles] (lines 321-332); [None] is [undefined]. *)
Definition apersFromCycles (cycles : Z) : option Z :=
  if (cycles <? 0) || (cycles >? 60) then None
  else if (cycles >? 3) && negb (Z.rem cycles 5 =? 0) then None
  else if cycles <=? 3 then Some cycles
  else Some (cycles / 5 + 3).

(** ** [configure] (lines 122-269) *)

Section Driver.
Variable t : Transport.

Definition modifyConfiguration (f : Configuration.t -> Configuration.t)
    : M unit :=
  modify (withConfiguration f).

(** Lines 128-142: the two flags and the two gains are stored as given. *)
Definition storeFlagsAndGains (options : Options.t) : M unit :=
  whenDefined (Options.enableALS options) (fun enableALS =>
    modifyConfiguration
      (Configuration.withEnabled (Enabled.withAEN enableALS))) ;;
  whenDefined (Options.on options) (fun on =>
    modifyConfiguration
      (Configuration.withEnabled (Enabled.withPON on))) ;;
  whenDefined (Options.alsGain options) (fun alsGain =>
    modifyConfiguration (Configuration.withAlsGain alsGain)) ;;
  whenDefined (Options.proximityGain options) (fun proximityGain =>
    modifyConfiguration (Configuration.withProximityGain proximityGain)).

(** The two [switch] statements of lines 148-181. *)
Definition alsGainField (alsGain : Z) : M Z :=
  if alsGain =? 1 then ret 0 (* 0b00 *)
  else if alsGain =? 4 then ret 1 (* 0b01 *)
  else if alsGain =? 16 then ret 2 (* 0b10 *)
  else if alsGain =? 64 then ret 3 (* 0b11 *)
  else throw (Error "invalid alsGain setting").

Definition proximityGainField (proximityGain : Z) : M Z :=
  if proximityGain =? 1 then ret 0 (* 0b0000 *)
  else if proximityGain =? 2 then ret 4 (* 0b0100 *)
  else if proximityGain =? 4 then ret 8 (* 0b1000 *)
  else if proximityGain =? 8 then ret 12 (* 0b1100 *)
  else throw (Error "invalid proximityGain setting").

(** Lines 144-185. *)
Definition writeGains (options : Options.t) : M unit :=
  when (defined (Options.alsGain options)
        || defined (Options.proximityGain options)) (
    let regValue := 0 in
    configuration <- gets configuration ;;
    fieldValue <- alsGainField (Configuration.alsGain configuration) ;;
    let regValue := Z.lor regValue fieldValue in
    fieldValue <-
      proximityGainField (Configuration.proximityGain configuration) ;;
    let regValue := Z.lor regValue fieldValue in
    writeUint8 t Register.CONTROLONE regValue).

(** Lines 187-195. *)
Definition configureIntegration (options : Options.t) : M unit :=
  whenDefined (Options.alsIntegrationCycles options)
    (fun alsIntegrationCycles =>
      if (alsIntegrationCycles >? 256) || (alsIntegrationCycles <? 0)
      then throw (Error "invalid alsIntegrationCycles setting")
      else
        modifyConfiguration
          (Configuration.withAlsIntegrationCycles alsIntegrationCycles) ;;
        let regValue := 256 - alsIntegrationCycles in
        modify (withMaxCount (1025 * alsIntegrationCycles)) ;;
        writeUint8 t Register.ATIME regValue).

(** Lines 199-211. *)
Definition configureThresholds (options : Options.t) : M unit :=
  whenDefined (Options.alsThresholdLow options) (fun alsThresholdLow =>
    if (alsThresholdLow <? 0) || (alsThresholdLow >? 0xFFFF)
    then throw (RangeError "invalid alsThresholdLow")
    else
      modifyConfiguration
        (Configuration.withAlsThresholdLow alsThresholdLow) ;;
      writeUint16 t Register.AILTL alsThresholdLow) ;;
  whenDefined (Options.alsThresholdHigh options) (fun alsThresholdHigh =>
    if (alsThresholdHigh <? 0) || (alsThresholdHigh >? 0xFFFF)
    then throw (RangeError "invalid thresholdHigh")
    else
      modifyConfiguration
        (Configuration.withAlsThresholdHigh alsThresholdHigh) ;;
      writeUint16 t Register.AIHTL alsThresholdHigh).

(** Lines 213-232.  [APERS] is a number, or [None] when it is [undefined]
    or [NaN]: [apersFromCycles(undefined)] passes every comparison as
    false and returns [undefined / 5 + 3], which is [NaN]; [|] reads
    both as 0. *)
Definition configurePersistence (options : Options.t) : M unit :=
  when (defined (Options.proximityThresholdPersistence options)
        || defined (Options.alsThresholdPersistence options)) (
    APERS <-
      match Options.alsThresholdPersistence options with
      | Some alsThresholdPersistence =>
          match apersFromCycles alsThresholdPersistence with
          | None => throw (RangeError "invalid alsThresholdPersistence")
          | Some APERS =>
              modifyConfiguration
                (Configuration.withAlsThresholdPersistence
                   alsThresholdPersistence) ;;
              ret (Some APERS)
          end
      | None =>
          configuration <- gets configuration ;;
          ret (match Configuration.alsThresholdPersistence configuration
               with
               | Some cycles => apersFromCycles cycles
               | None => None
               end)
      end ;;
    whenDefined (Options.proximityThresholdPersistence options)
      (fun proximityThresholdPersistence =>
        if (proximityThresholdPersistence <? 0)
           || (proximityThresholdPersistence >? 15)
        then throw (RangeError "invalid proximityThresholdPersistence")
        else
          modifyConfiguration
            (Configuration.withProximityThresholdPersistence
               proximityThresholdPersistence)) ;;
    configuration <- gets configuration ;;
    let PPERS :=
      shl (Configuration.proximityThresholdPersistence configuration) 4 in
    writeUint8 t Register.PERS (bor PPERS APERS)).

(** Lines 234-241. *)
Definition deriveInterruptEnable (options : Options.t) : M unit :=
  when (defined (Options.alsThresholdLow options)
        || defined (Options.alsThresholdHigh options)) (
    configuration <- gets configuration ;;
    (if strictlyEquals (Configuration.alsThresholdHigh configuration) 0xFFFF
        && strictlyEquals (Configuration.alsThresholdLow configuration) 0
     then modifyConfiguration
            (Configuration.withEnabled (Enabled.withAIEN false))
     else modifyConfiguration
            (Configuration.withEnabled (Enabled.withAIEN true))) ;;
    _ <- readUint8 t 0xE7 ;;  (* clear interrupts *)
    ret tt).

(** The byte assembled at lines 244-265. *)
Definition enableByte (enabled : Enabled.t) : Z :=
  let e := 0 in
  let e := if Enabled.GEN enabled then Z.lor e 64 (* 0b01000000 *) else e in
  let e := if Enabled.PIEN enabled then Z.lor e 32 (* 0b00100000 *) else e in
  let e := if Enabled.AIEN enabled then Z.lor e 16 (* 0b00010000 *) else e in
  let e := if Enabled.WEN enabled then Z.lor e 8 (* 0b00001000 *) else e in
  let e := if Enabled.PEN enabled then Z.lor e 4 (* 0b00000100 *) else e in
  let e := if Enabled.AEN enabled then Z.lor e 2 (* 0b00000010 *) else e in
  let e := if Enabled.PON enabled then Z.lor e 1 (* 0b00000001 *) else e in
  e.

(** Lines 243-268. *)
Definition writeEnable (options : Options.t) : M unit :=
  when (defined (Options.on options)
        || defined (Options.enableALS options)
        || defined (Options.alsThresholdLow options)
        || defined (Options.alsThresholdHigh options)) (
    enabled <- gets (fun m => Configuration.enabled (configuration m)) ;;
    writeUint8 t Register.ENABLE (enableByte enabled)).

Definition configure (options : Options.t) : M unit :=
  storeFlagsAndGains options ;;
  writeGains options ;;
  configureIntegration options ;;
  configureThresholds options ;;
  configurePersistence options ;;
  deriveInterruptEnable options ;;
  writeEnable options.

(** ** [sample] (lines 271-298) *)

(** A quotient of two numbers of the language, for an integer dividend
    and divisor: a zero divisor gives an infinity or [NaN]. *)
Inductive Quotient : Type :=
| Finite (q : Q)
| PositiveInfinity
| NegativeInfinity
| NotANumber.

Definition divide (n d : Z) : Quotient :=
  if d =? 0 then
    (if n =? 0 then NotANumber
     else if n >? 0 then PositiveInfinity else NegativeInfinity)
  else Finite (inject_Z n / inject_Z d)%Q.

Record Lightmeter : Type := {
  clear : Quotient;
  red : Quotient;
  green : Quotient;
  blue : Quotient
}.

(** The object returned by [sample]: [lightmeter] may be missing. *)
Record Sample : Type := { lightmeter : option Lightmeter }.

(** [#alsView.getUint16(byteOffset, true)]: little-endian; a
    [RangeError] outside the block. *)
Definition getUint16 (byteOffset : nat) : M Z := fun m =>
  match nth_error (alsBlock m) byteOffset,
        nth_error (alsBlock m) (S byteOffset) with
  | Some lo, Some hi =>
      (Returned (Z.lor (byteZ lo) (Z.shiftl (byteZ hi) 8)), m)
  | _, _ => (Thrown (RangeError "getUint16"), m)
  end.

(** The result is [None] for [undefined]. *)
Definition sample : M (option Sample) :=
  enabled <- gets (fun m => Configuration.enabled (configuration m)) ;;
  if negb (Enabled.PON enabled) then ret None
  else
    status <- readUint8 t Register.STATUS ;;
    if Enabled.AEN enabled && negb (Z.land (byteZ status) 0x01 =? 0) then
      readBuffer t Register.CDATAL ;;
      traceClear <- getUint16 0 ;;
      modify (print traceClear) ;;
      maxCount <- gets maxCount ;;
      clear <- getUint16 0 ;;
      red <- getUint16 2 ;;
      green <- getUint16 4 ;;
      blue <- getUint16 6 ;;
      ret (Some {| lightmeter := Some
        {| clear := divide clear maxCount;
           red := divide red maxCount;
           green := divide green maxCount;
           blue := divide blue maxCount |} |})
    else ret (Some {| lightmeter := None |}).

(** ** [close] (lines 300-307) *)
Definition close : M unit :=
  hasIo <- gets io ;;
  when hasIo (
    writeUint8 t Register.ENABLE 0x00 ;;
    transact t CloseIO) ;;
  hasMonitor <- gets monitor ;;
  when hasMonitor (closeMonitor t) ;;
  modify (fun m => withMonitor false (withIo false m)).

(** ** [get configuration] (lines 309-311): a copy of the mirror, taken
    when the accessor is read. *)
Definition getConfiguration : M Configuration.t := gets configuration.

(** ** The constructor (lines 63-120)

    [alert] and [onAlert] tell whether the two options were supplied.
    Creating the bus and pin objects is left to the caller's classes;
    the model records only that the handles are now held. *)
Definition defaults : Options.t :=
  {| Options.on := Some true;
     Options.enableALS := Some true;
     Options.alsIntegrationCycles := Some 10;
     Options.alsGain := Some 1;
     Options.proximityGain := None;
     Options.alsThresholdLow := Some 0;
     Options.alsThresholdHigh := Some 0xFFFF;
     Options.alsThresholdPersistence := Some 1;
     Options.proximityThresholdPersistence := Some 1 |}.

Definition constructor (alert onAlert : bool) : M unit :=
  modify (withIo true) ;;
  catch
    (writeUint8 t Register.ENABLE 0x00 ;;
     writeUint8 t Register.ENABLE 0x01)
    (fun _ => close ;; throw (Error "reset failed")) ;;
  idCheck <-
    catch
      (id <- readUint8 t Register.ID ;; ret (0xAB =? byteZ id))
      (fun _ => close ;; throw (Error "i2c error during id check")) ;;
  when (negb idCheck) (close ;; throw (Error "unexpected sensor ID")) ;;
  when (alert && onAlert) (modify (withMonitor true)) ;;
  modify (withAlsBlock (repeat x00 alsBlockLength)) ;;
  configure defaults.

End Driver.

(** A bus that never faults, for running the model: every write is
    acknowledged, the identity register reads 0xAB, every other byte
    register reads [status], and a burst read returns [block]. *)
Definition steady (status : byte) (block : list byte) : Transport :=
  {| acknowledge := fun _ _ => true;
     answerUint8 := fun _ register =>
       Some (if register =? Register.ID then xab else status);
     answerBuffer := fun _ _ _ => Some (fun i => nth i block x00) |}.

(** The machine a successful construction leaves behind. *)
Definition constructed (status : byte) (block : list byte) : Machine :=
  snd (constructor (steady status block) false false initial).

(** ** Vocabulary of the statements *)

(** The requests a computation added to the wire. *)
Definition issued (before after : Machine) : list Request :=
  skipn (List.length (wire before)) (wire after).

(** Is the request a register write to [register]? *)
Definition writesTo (register : Z) (r : Request) : bool :=
  match r with
  | WriteUint8 reg _ | WriteUint16 reg _ => reg =? register
  | _ => false
  end.

Definition writes (register : Z) (l : list Request) : list Request :=
  filter (writesTo register) l.

(** Which options make [configure] write a given register: the guards of
    lines 144, 187, 199, 206, 213 and 243. *)
Definition controls (register : Z) (options : Options.t) : bool :=
  if register =? Register.CONTROLONE then
    defined (Options.alsGain options)
    || defined (Options.proximityGain options)
  else if register =? Register.ATIME then
    defined (Options.alsIntegrationCycles options)
  else if register =? Register.AILTL then
    defined (Options.alsThresholdLow options)
  else if register =? Register.AIHTL then
    defined (Options.alsThresholdHigh options)
  else if register =? Register.PERS then
    defined (Options.proximityThresholdPersistence options)
    || defined (Options.alsThresholdPersistence options)
  else if register =? Register.ENABLE then
    defined (Options.on options)
    || defined (Options.enableALS options)
    || defined (Options.alsThresholdLow options)
    || defined (Options.alsThresholdHigh options)
  else false.

(** A computation [respects] a relation between the machine it starts
    from and the machine it leaves, whether it returns or throws. *)
Definition respects {A} (R : Machine -> Machine -> Prop) (c : M A) : Prop :=
  forall m, R m (snd (c m)).

(** Everything put on the wire satisfies [P]. *)
Definition quiet (P : Request -> Prop) (m m' : Machine) : Prop :=
  exists d, wire m' = wire m ++ d /\ Forall P d.

(** The observation [f] of the machine is unchanged. *)
Definition keeps {B} (f : Machine -> B) (m m' : Machine) : Prop :=
  f m' = f m.

(** A quotient that is a number between 0 and 1. *)
Definition inUnitInterval (x : Quotient) : Prop :=
  match x with
  | Finite q => (0 <= q /\ q <= 1)%Q
  | _ => False
  end.

(** Calls of [configure] with few options. *)
Definition justGains (alsGain proximityGain : option Z) : Options.t :=
  {| Options.enableALS := None; Options.on := None;
     Options.alsIntegrationCycles := None;
     Options.alsGain := alsGain; Options.proximityGain := proximityGain;
     Options.alsThresholdHigh := None; Options.alsThresholdLow := None;
     Options.alsThresholdPersistence := None;
     Options.proximityThresholdPersistence := None |}.

Definition justAlsIntegrationCycles (c : Z) : Options.t :=
  {| Options.enableALS := None; Options.on := None;
     Options.alsIntegrationCycles := Some c;
     Options.alsGain := None; Options.proximityGain := None;
     Options.alsThresholdHigh := None; Options.alsThresholdLow := None;
     Options.alsThresholdPersistence := None;
     Options.proximityThresholdPersistence := None |}.

Definition justAlsThresholdPersistence (p : Z) : Options.t :=
  {| Options.enableALS := None; Options.on := None;
     Options.alsIntegrationCycles := None;
     Options.alsGain := None; Options.proximityGain := None;
     Options.alsThresholdHigh := None; Options.alsThresholdLow := None;
     Options.alsThresholdPersistence := Some p;
     Options.proximityThresholdPersistence := None |}.

Definition justThresholds (low high : option Z) : Options.t :=
  {| Options.enableALS := None; Options.on := None;
     Options.alsIntegrationCycles := None;
     Options.alsGain := None; Options.proximityGain := None;
     Options.alsThresholdHigh := high; Options.alsThresholdLow := low;
     Options.alsThresholdPersistence := None;
     Options.proximityThresholdPersistence := None |}.

Definition justOn (on : bool) : Options.t :=
  {| Options.enableALS := None; Options.on := Some on;
     Options.alsIntegrationCycles := None;
     Options.alsGain := None; Options.proximityGain := None;
     Options.alsThresholdHigh := None; Options.alsThresholdLow := None;
     Options.alsThresholdPersistence := None;
     Options.proximityThresholdPersistence := None |}.

(** A constructed driver after [configure({on: false})]. *)
Definition poweredOff (status : byte) (block : list byte) : Machine :=
  snd (configure (steady status block) (justOn false)
         (constructed status block)).

(** A driver whose constructor got no further than taking the bus. *)
Definition partiallyInitialized : Machine := withIo true initial.

(** A constructed driver after [configure({alsThresholdLow: 5})]: the
    stored pair is (5, 0xFFFF) and the ALS interrupt is enabled. *)
Definition armed : Machine :=
  snd (configure (steady x01 []) (justThresholds (Some 5) None)
         (constructed x01 [])).

(** The stored pair is the one that switches the ALS interrupt off. *)
Definition sentinelPair (c : Configuration.t) : Prop :=
  Configuration.alsThresholdLow c = Some 0
  /\ Configuration.alsThresholdHigh c = Some 0xFFFF.

(** The count held in two bytes, low byte first. *)
Definition littleEndian16 (lo hi : byte) : Z := byteZ lo + 256 * byteZ hi.

(** ** Further vocabulary *)

(** [configure({})]. *)
Definition noOptions : Options.t :=
  {| Options.enableALS := None; Options.on := None;
     Options.alsIntegrationCycles := None;
     Options.alsGain := None; Options.proximityGain := None;
     Options.alsThresholdHigh := None; Options.alsThresholdLow := None;
     Options.alsThresholdPersistence := None;
     Options.proximityThresholdPersistence := None |}.

Definition justProximityThresholdPersistence (p : Z) : Options.t :=
  {| Options.enableALS := None; Options.on := None;
     Options.alsIntegrationCycles := None;
     Options.alsGain := None; Options.proximityGain := None;
     Options.alsThresholdHigh := None; Options.alsThresholdLow := None;
     Options.alsThresholdPersistence := None;
     Options.proximityThresholdPersistence := Some p |}.

(** The register a request addresses. *)
Definition target (r : Request) : option Z :=
  match r with
  | WriteUint8 reg _ | WriteUint16 reg _ | ReadUint8 reg
  | ReadBuffer reg _ => Some reg
  | CloseIO | CloseMonitor => None
  end.

(** The registers a call of [configure] addresses when nothing throws, in
    the order of the source: the guards of lines 144, 187, 199, 206, 213,
    234 and 243. *)
Definition touched (o : Options.t) : list Z :=
  (if defined (Options.alsGain o) || defined (Options.proximityGain o)
   then [Register.CONTROLONE] else [])
  ++ (if defined (Options.alsIntegrationCycles o)
      then [Register.ATIME] else [])
  ++ (if defined (Options.alsThresholdLow o)
      then [Register.AILTL] else [])
  ++ (if defined (Options.alsThresholdHigh o)
      then [Register.AIHTL] else [])
  ++ (if defined (Options.proximityThresholdPersistence o)
         || defined (Options.alsThresholdPersistence o)
      then [Register.PERS] else [])
  ++ (if defined (Options.alsThresholdLow o)
         || defined (Options.alsThresholdHigh o)
      then [0xE7] else [])
  ++ (if defined (Options.on o) || defined (Options.enableALS o)
         || defined (Options.alsThresholdLow o)
         || defined (Options.alsThresholdHigh o)
      then [Register.ENABLE] else []).

(** When the computation returns, the registers it addressed are [l], in
    that order. *)
Definition traces (c : M unit) (l : list Z) : Prop :=
  forall m, fst (c m) = Returned tt ->
            exists d, wire (snd (c m)) = wire m ++ d
                      /\ map target d = map Some l.

(** The only requests [configure] has in its text. *)
Definition configureRequest (r : Request) : Prop :=
  match r with
  | WriteUint8 reg v =>
      (reg = Register.CONTROLONE /\ 0 <= v <= 15)
      \/ reg = Register.ATIME
      \/ reg = Register.PERS
      \/ (reg = Register.ENABLE /\ 0 <= v <= 127)
  | WriteUint16 reg v =>
      (reg = Register.AILTL \/ reg = Register.AIHTL) /\ 0 <= v <= 0xFFFF
  | ReadUint8 reg => reg = 0xE7
  | _ => False
  end.

(** The only requests [sample] has in its text. *)
Definition sampleRequest (r : Request) : Prop :=
  r = ReadUint8 Register.STATUS
  \/ r = ReadBuffer Register.CDATAL alsBlockLength.

(** The ceiling agrees with the stored integration cycles. *)
Definition calibrated (m : Machine) : Prop :=
  maxCount m = 1025 * Configuration.alsIntegrationCycles (configuration m).

(** A stored value, when there is one, satisfies [P]. *)
Definition whenStored (P : Z -> Prop) (v : option Z) : Prop :=
  match v with Some z => P z | None => True end.

(** What the guards of lines 188, 200, 207, 217 and 225 let into the
    mirror. *)
Definition wellStored (c : Configuration.t) : Prop :=
  0 <= Configuration.alsIntegrationCycles c <= 256
  /\ whenStored (fun z => 0 <= z <= 0xFFFF) (Configuration.alsThresholdLow c)
  /\ whenStored (fun z => 0 <= z <= 0xFFFF) (Configuration.alsThresholdHigh c)
  /\ whenStored (fun z => apersFromCycles z <> None)
       (Configuration.alsThresholdPersistence c)
  /\ whenStored (fun z => 0 <= z <= 15)
       (Configuration.proximityThresholdPersistence c).

(** A transport that never faults on a write or a close. *)
Definition acknowledging (t : Transport) : Prop :=
  forall h r, acknowledge t h r = true.

(** A bus on which every write faults. *)
Definition deaf : Transport :=
  {| acknowledge := fun _ _ => false;
     answerUint8 := fun _ _ => None;
     answerBuffer := fun _ _ _ => None |}.

(** A bus that never faults but whose identity register reads [id]. *)
Definition impostor (id : byte) : Transport :=
  {| acknowledge := fun _ _ => true;
     answerUint8 := fun _ _ => Some id;
     answerBuffer := fun _ _ _ => Some (fun _ => x00) |}.

(** A bus that faults on the write of one register and on nothing else. *)
Definition brokenAt (register : Z) : Transport :=
  {| acknowledge := fun _ r => negb (writesTo register r);
     answerUint8 := fun _ reg =>
       Some (if reg =? Register.ID then xab else x00);
     answerBuffer := fun _ _ _ => Some (fun _ => x00) |}.

(** When the computation returns, the last request it issued satisfies
    [P] together with the machine it leaves. *)
Definition ends (c : M unit) (P : Machine -> Request -> Prop) : Prop :=
  forall m, fst (c m) = Returned tt ->
            exists d r, wire (snd (c m)) = wire m ++ d ++ [r]
                        /\ P (snd (c m)) r.

(** The property [P] of the machine survives. *)
Definition preserves (P : Machine -> Prop) (m m' : Machine) : Prop :=
  P m -> P m'.

(** A constructed driver with ALS switched off. *)
Definition alsOff (status : byte) (block : list byte) : Machine :=
  snd (configure (steady status block)
         {| Options.enableALS := Some false; Options.on := None;
            Options.alsIntegrationCycles := None;
            Options.alsGain := None; Options.proximityGain := None;
            Options.alsThresholdHigh := None; Options.alsThresholdLow := None;
            Options.alsThresholdPersistence := None;
            Options.proximityThresholdPersistence := None |}
         (constructed status block)).

(** A constructed driver that was given an alert pin and a callback. *)
Definition monitored : Machine :=
  snd (constructor (steady x01 []) true true initial).

(** * Reasoning about computations *)

Lemma issued_app (m m' : Machine) (d : list Request) :
  wire m' = wire m ++ d -> issued m m' = d.
Proof.
  intros H. unfold issued. rewrite H.
  rewrite skipn_app, skipn_all, Nat.sub_diag. reflexivity.
Qed.

Lemma issued_same (m m' : Machine) : wire m' = wire m -> issued m m' = [].
Proof.
  intros H. apply issued_app. rewrite H, app_nil_r. reflexivity.
Qed.

#[export] Instance quiet_PreOrder (P : Request -> Prop) : PreOrder (quiet P).
Proof.
  split.
  - intros m. exists []. split; [now rewrite app_nil_r | constructor].
  - intros a b c [d1 [H1 F1]] [d2 [H2 F2]]. exists (d1 ++ d2). split.
    + rewrite H2, H1, app_assoc. reflexivity.
    + apply Forall_app. split; assumption.
Qed.

#[export] Instance keeps_PreOrder {B} (f : Machine -> B) : PreOrder (keeps f).
Proof.
  split.
  - intros m. reflexivity.
  - intros a b c H1 H2. unfold keeps in *. congruence.
Qed.

Lemma quiet_same (P : Request -> Prop) (m m' : Machine) :
  wire m' = wire m -> quiet P m m'.
Proof.
  intros H. exists []. split; [now rewrite app_nil_r | constructor].
Qed.

Lemma quiet_issue (P : Request -> Prop) (r : Request) (m m' : Machine) :
  P r -> wire m' = wire (issue r m) -> quiet P m m'.
Proof.
  intros H E. exists [r]. split; [exact E | now constructor].
Qed.

Lemma quiet_issued (P : Request -> Prop) (m m' : Machine) :
  quiet P m m' -> Forall P (issued m m').
Proof.
  intros [d [H F]]. rewrite (issued_app _ _ _ H). exact F.
Qed.

Section Respect.
Context {R : Machine -> Machine -> Prop} {R_pre : PreOrder R}.
Variable t : Transport.

Lemma respects_ret {A} (a : A) : respects R (ret a).
Proof. intros m. simpl. reflexivity. Qed.

Lemma respects_throw {A} (e : Exn) : respects R (@throw A e).
Proof. intros m. simpl. reflexivity. Qed.

Lemma respects_gets {A} (f : Machine -> A) : respects R (gets f).
Proof. intros m. simpl. reflexivity. Qed.

Lemma respects_bind {A B} (c : M A) (k : A -> M B) :
  respects R c -> (forall a, respects R (k a)) -> respects R (bind c k).
Proof.
  intros Hc Hk m. unfold bind. specialize (Hc m).
  destruct (c m) as [[a | e] m1]; simpl in *.
  - transitivity m1; [exact Hc | apply Hk].
  - exact Hc.
Qed.

Lemma respects_catch {A} (c : M A) (h : Exn -> M A) :
  respects R c -> (forall e, respects R (h e)) -> respects R (catch c h).
Proof.
  intros Hc Hh m. unfold catch. specialize (Hc m).
  destruct (c m) as [[a | e] m1]; simpl in *.
  - exact Hc.
  - transitivity m1; [exact Hc | apply Hh].
Qed.

Lemma respects_when (b : bool) (c : M unit) :
  (b = true -> respects R c) -> respects R (when b c).
Proof.
  intros H. destruct b; simpl; [now apply H | apply respects_ret].
Qed.

Lemma respects_whenDefined {A} (x : option A) (k : A -> M unit) :
  (forall v, x = Some v -> respects R (k v)) ->
  respects R (whenDefined x k).
Proof.
  intros H. destruct x; simpl; [now apply H | apply respects_ret].
Qed.

Lemma respects_modify (f : Machine -> Machine) :
  (forall m, R m (f m)) -> respects R (modify f).
Proof. intros H m. apply H. Qed.

Lemma respects_transact (r : Request) :
  (forall m, R m (issue r m)) -> respects R (transact t r).
Proof.
  intros H m. unfold transact. destruct (io m); simpl;
    [apply H | reflexivity].
Qed.

Lemma respects_readUint8 (register : Z) :
  (forall m, R m (issue (ReadUint8 register) m)) ->
  respects R (readUint8 t register).
Proof.
  intros H m. unfold readUint8. destruct (io m); simpl;
    [apply H | reflexivity].
Qed.

Lemma respects_readBuffer (register : Z) :
  (forall m l,
      R m (withAlsBlock l (issue (ReadBuffer register alsBlockLength) m)))
  ->
  (forall m, R m (issue (ReadBuffer register alsBlockLength) m)) ->
  respects R (readBuffer t register).
Proof.
  intros H1 H2 m. unfold readBuffer. destruct (io m); simpl.
  - destruct (answerBuffer t (wire m) register alsBlockLength); simpl.
    + apply H1.
    + apply H2.
  - reflexivity.
Qed.

Lemma respects_closeMonitor :
  (forall m, R m (issue CloseMonitor m)) -> respects R (closeMonitor t).
Proof. intros H m. unfold closeMonitor. simpl. apply H. Qed.

Lemma respects_getUint16 (byteOffset : nat) :
  respects R (getUint16 byteOffset).
Proof.
  intros m. unfold getUint16.
  destruct (nth_error (alsBlock m) byteOffset);
    [destruct (nth_error (alsBlock m) (S byteOffset)) |];
    simpl; reflexivity.
Qed.
End Respect.

(** Walks through a computation, one construct at a time, and leaves what
    the relation must allow for each update and each request. *)
Ltac walk :=
  cbv zeta;
  lazymatch goal with
  | |- respects _ (bind _ _) =>
      apply respects_bind; [walk | intros; walk]
  | |- respects _ (catch _ _) =>
      apply respects_catch; [walk | intros; walk]
  | |- respects _ (ret _) => apply respects_ret
  | |- respects _ (throw _) => apply respects_throw
  | |- respects _ (gets _) => apply respects_gets
  | |- respects _ (when _ _) => apply respects_when; intros; walk
  | |- respects _ (whenDefined _ _) =>
      apply respects_whenDefined; intros; walk
  | |- respects _ (modify _) => apply respects_modify; intros
  | |- respects _ (modifyConfiguration _) =>
      unfold modifyConfiguration; apply respects_modify; intros
  | |- respects _ (writeUint8 _ _ _) =>
      unfold writeUint8; apply respects_transact; intros
  | |- respects _ (writeUint16 _ _ _) =>
      unfold writeUint16; apply respects_transact; intros
  | |- respects _ (transact _ _) => apply respects_transact; intros
  | |- respects _ (readUint8 _ _) => apply respects_readUint8; intros
  | |- respects _ (readBuffer _ _) => apply respects_readBuffer; intros
  | |- respects _ (closeMonitor _) => apply respects_closeMonitor; intros
  | |- respects _ (getUint16 _) => apply respects_getUint16
  | |- respects _ (alsGainField _) => unfold alsGainField; walk
  | |- respects _ (proximityGainField _) => unfold proximityGainField; walk
  | |- respects _ (if ?b then _ else _) => destruct b eqn:?; walk
  | |- respects _ (match ?x with _ => _ end) => destruct x eqn:?; walk
  | |- _ => idtac
  end.

Ltac unfold_configure :=
  unfold configure, storeFlagsAndGains, writeGains, configureIntegration,
    configureThresholds, configurePersistence, deriveInterruptEnable,
    writeEnable.

(** ** What [configure] leaves alone *)

(** An observation of the mirror is kept when every update of the mirror
    made by the call keeps it. *)
Ltac kept :=
  unfold_configure; walk; unfold keeps; simpl;
  solve [reflexivity | congruence].

Section ConfigureKeeps.
Variables (t : Transport) (o : Options.t).

Let mirror {B} (f : Configuration.t -> B) : Machine -> B :=
  fun m => f (configuration m).
Let flag (f : Enabled.t -> bool) : Machine -> bool :=
  fun m => f (Configuration.enabled (configuration m)).

Lemma configure_keeps_AEN :
  Options.enableALS o = None ->
  respects (keeps (flag Enabled.AEN)) (configure t o).
Proof. intros H. kept. Qed.

Lemma configure_keeps_PON :
  Options.on o = None ->
  respects (keeps (flag Enabled.PON)) (configure t o).
Proof. intros H. kept. Qed.

Lemma configure_keeps_alsIntegrationCycles :
  Options.alsIntegrationCycles o = None ->
  respects (keeps (mirror Configuration.alsIntegrationCycles))
    (configure t o).
Proof. intros H. kept. Qed.

Lemma configure_keeps_maxCount :
  Options.alsIntegrationCycles o = None ->
  respects (keeps maxCount) (configure t o).
Proof. intros H. kept. Qed.

Lemma configure_keeps_alsGain :
  Options.alsGain o = None ->
  respects (keeps (mirror Configuration.alsGain)) (configure t o).
Proof. intros H. kept. Qed.

Lemma configure_keeps_proximityGain :
  Options.proximityGain o = None ->
  respects (keeps (mirror Configuration.proximityGain)) (configure t o).
Proof. intros H. kept. Qed.

Lemma configure_keeps_alsThresholdLow :
  Options.alsThresholdLow o = None ->
  respects (keeps (mirror Configuration.alsThresholdLow)) (configure t o).
Proof. intros H. kept. Qed.

Lemma configure_keeps_alsThresholdHigh :
  Options.alsThresholdHigh o = None ->
  respects (keeps (mirror Configuration.alsThresholdHigh)) (configure t o).
Proof. intros H. kept. Qed.

Lemma configure_keeps_alsThresholdPersistence :
  Options.alsThresholdPersistence o = None ->
  respects (keeps (mirror Configuration.alsThresholdPersistence))
    (configure t o).
Proof. intros H. kept. Qed.

Lemma configure_keeps_proximityThresholdPersistence :
  Options.proximityThresholdPersistence o = None ->
  respects (keeps (mirror Configuration.proximityThresholdPersistence))
    (configure t o).
Proof. intros H. kept. Qed.

(** The bus handle, the pin handle, the data block and the trace are
    never touched by [configure]. *)
Lemma configure_keeps_handles :
  respects (keeps (fun m => (io m, monitor m, alsBlock m, traced m)))
    (configure t o).
Proof. kept. Qed.
End ConfigureKeeps.

(** ** What [configure] puts on the wire *)

Lemma writesTo_other (register reg value : Z) :
  reg <> register ->
  writesTo register (WriteUint8 reg value) = false
  /\ writesTo register (WriteUint16 reg value) = false.
Proof. intros H. simpl. split; apply Z.eqb_neq; exact H. Qed.

(** Closes the goals [walk] leaves for a [quiet] relation: an update of
    the mirror leaves the wire as it is, a read is not a write, and a write
    goes to a register one of whose options is present. *)
Ltac silent H :=
  lazymatch goal with
  | |- quiet _ _ (issue (ReadUint8 ?reg) _) =>
      apply (quiet_issue _ (ReadUint8 reg)); reflexivity
  | |- quiet _ _ (issue (?write ?reg ?v) _) =>
      apply (quiet_issue _ (write reg v)); [ | reflexivity];
      apply (writesTo_other _ reg);
      let E := fresh in
      intro E; rewrite <- E in H; unfold controls in H;
      repeat match goal with
             | D : _ = Some _ |- _ => rewrite D in H
             end;
      simpl in H; simpl in *; congruence
  | |- quiet _ _ _ => apply quiet_same; reflexivity
  end.

Lemma configure_quiet (t : Transport) (o : Options.t) (register : Z) :
  controls register o = false ->
  respects (quiet (fun r => writesTo register r = false)) (configure t o).
Proof.
  intros H. unfold_configure. walk; silent H.
Qed.

Lemma filter_none {A} (f : A -> bool) (l : list A) :
  Forall (fun x => f x = false) l -> filter f l = [].
Proof.
  induction 1 as [| x l Hx _ IH]; simpl; [reflexivity |].
  rewrite Hx. exact IH.
Qed.

(** Claim C6.  In every call of [configure], whether it returns or throws,
    each recognised option that is absent keeps its stored value in the
    mirror, and a register none of whose controlling options is present in
    the call receives no write. *)
Theorem configure_merges_and_writes_only_touched
    (t : Transport) (o : Options.t) (m : Machine) :
  let m' := snd (configure t o m) in
  let before := configuration m in
  let after := configuration m' in
  (Options.enableALS o = None ->
     Enabled.AEN (Configuration.enabled after)
     = Enabled.AEN (Configuration.enabled before))
  /\ (Options.on o = None ->
        Enabled.PON (Configuration.enabled after)
        = Enabled.PON (Configuration.enabled before))
  /\ (Options.alsIntegrationCycles o = None ->
        Configuration.alsIntegrationCycles after
        = Configuration.alsIntegrationCycles before)
  /\ (Options.alsGain o = None ->
        Configuration.alsGain after = Configuration.alsGain before)
  /\ (Options.proximityGain o = None ->
        Configuration.proximityGain after
        = Configuration.proximityGain before)
  /\ (Options.alsThresholdLow o = None ->
        Configuration.alsThresholdLow after
        = Configuration.alsThresholdLow before)
  /\ (Options.alsThresholdHigh o = None ->
        Configuration.alsThresholdHigh after
        = Configuration.alsThresholdHigh before)
  /\ (Options.alsThresholdPersistence o = None ->
        Configuration.alsThresholdPersistence after
        = Configuration.alsThresholdPersistence before)
  /\ (Options.proximityThresholdPersistence o = None ->
        Configuration.proximityThresholdPersistence after
        = Configuration.proximityThresholdPersistence before)
  /\ (forall register,
        controls register o = false -> writes register (issued m m') = []).
Proof.
  cbv zeta. repeat split.
  - intros H. exact (configure_keeps_AEN t o H m).
  - intros H. exact (configure_keeps_PON t o H m).
  - intros H. exact (configure_keeps_alsIntegrationCycles t o H m).
  - intros H. exact (configure_keeps_alsGain t o H m).
  - intros H. exact (configure_keeps_proximityGain t o H m).
  - intros H. exact (configure_keeps_alsThresholdLow t o H m).
  - intros H. exact (configure_keeps_alsThresholdHigh t o H m).
  - intros H. exact (configure_keeps_alsThresholdPersistence t o H m).
  - intros H. exact (configure_keeps_proximityThresholdPersistence t o H m).
  - intros register H. unfold writes. apply filter_none.
    apply quiet_issued. exact (configure_quiet t o register H m).
Qed.

(** The call [configure({alsGain: 4, proximityGain: 8})] on a freshly
    constructed driver: the seven other options keep their defaults and
    only CONTROLONE is written. *)
Lemma configure_merges_and_writes_only_touched_witness :
  let t := steady x01 [] in
  let m := constructed x01 [] in
  let m' := snd (configure t (justGains (Some 4) (Some 8)) m) in
  let after := configuration m' in
  Enabled.AEN (Configuration.enabled after) = true
  /\ Enabled.PON (Configuration.enabled after) = true
  /\ Configuration.alsIntegrationCycles after = 10
  /\ Configuration.alsThresholdLow after = Some 0
  /\ Configuration.alsThresholdHigh after = Some 0xFFFF
  /\ Configuration.alsThresholdPersistence after = Some 1
  /\ Configuration.proximityThresholdPersistence after = Some 1
  /\ writes Register.ATIME (issued m m') = []
  /\ writes Register.AILTL (issued m m') = []
  /\ writes Register.AIHTL (issued m m') = []
  /\ writes Register.PERS (issued m m') = []
  /\ writes Register.ENABLE (issued m m') = []
  /\ issued m m' = [WriteUint8 Register.CONTROLONE 13].
Proof.
  cbv zeta.
  destruct (configure_merges_and_writes_only_touched
              (steady x01 []) (justGains (Some 4) (Some 8))
              (constructed x01 []))
    as (HA & HP & HC & _ & _ & HL & HH & HAP & HPP & HW).
  repeat match goal with |- _ /\ _ => split end.
  - rewrite HA; reflexivity.
  - rewrite HP; reflexivity.
  - rewrite HC; reflexivity.
  - rewrite HL; reflexivity.
  - rewrite HH; reflexivity.
  - rewrite HAP; reflexivity.
  - rewrite HPP; reflexivity.
  - apply HW; reflexivity.
  - apply HW; reflexivity.
  - apply HW; reflexivity.
  - apply HW; reflexivity.
  - apply HW; reflexivity.
  - reflexivity.
Defined.

(** * [sample] on a powered-off driver *)

Lemma sample_powered_off (t : Transport) (m : Machine) :
  Enabled.PON (Configuration.enabled (configuration m)) = false ->
  sample t m = (Returned None, m).
Proof.
  intros H. unfold sample, bind, gets. rewrite H. reflexivity.
Qed.

(** Claim C7.  When the stored power-on flag is false, [sample] returns
    [undefined], whatever the transport would answer to a status read. *)
Theorem sample_off_returns_undefined (t : Transport) (m : Machine) :
  Enabled.PON (Configuration.enabled (configuration m)) = false ->
  fst (sample t m) = Returned None.
Proof.
  intros H. rewrite (sample_powered_off t m H). reflexivity.
Qed.

(** A powered-off driver on a bus whose status register reads 0xFF. *)
Lemma sample_off_returns_undefined_witness :
  Enabled.PON (Configuration.enabled (configuration (poweredOff xff [])))
  = false
  /\ answerUint8 (steady xff []) (wire (poweredOff xff [])) Register.STATUS
     = Some xff
  /\ fst (sample (steady xff []) (poweredOff xff [])) = Returned None.
Proof.
  split; [reflexivity | split; [reflexivity |]].
  apply (sample_off_returns_undefined (steady xff []) (poweredOff xff [])).
  reflexivity.
Defined.

(** Claim C10.  When the stored power-on flag is false, [sample] issues no
    request at all, not even the status read: the machine, wire included,
    is left exactly as it was. *)
Theorem sample_off_touches_no_bus (t : Transport) (m : Machine) :
  Enabled.PON (Configuration.enabled (configuration m)) = false ->
  snd (sample t m) = m /\ issued m (snd (sample t m)) = [].
Proof.
  intros H. rewrite (sample_powered_off t m H). simpl.
  split; [reflexivity | apply issued_same; reflexivity].
Qed.

Lemma sample_off_touches_no_bus_witness :
  Enabled.PON (Configuration.enabled (configuration (poweredOff xff [])))
  = false
  /\ io (poweredOff xff []) = true
  /\ snd (sample (steady xff []) (poweredOff xff [])) = poweredOff xff []
  /\ issued (poweredOff xff [])
       (snd (sample (steady xff []) (poweredOff xff []))) = [].
Proof.
  split; [reflexivity | split; [reflexivity |]].
  apply (sample_off_touches_no_bus (steady xff []) (poweredOff xff [])).
  reflexivity.
Defined.

(** * [close] *)

Lemma close_releases (t : Transport) (m : Machine) :
  fst (close t m) = Returned tt ->
  io (snd (close t m)) = false /\ monitor (snd (close t m)) = false.
Proof.
  unfold close, bind, gets, when, writeUint8, transact, closeMonitor,
    modify, ret.
  destruct (io m); simpl;
    repeat match goal with
           | |- context [if ?b then _ else _] => destruct b; simpl
           end;
    intros H; try discriminate H; split; reflexivity.
Qed.

Lemma close_released (t : Transport) (m : Machine) :
  io m = false -> monitor m = false -> close t m = (Returned tt, m).
Proof.
  intros Hio Hmon. unfold close, bind, gets, when, modify, ret.
  rewrite Hio, Hmon. destruct m; simpl in *; subst. reflexivity.
Qed.

(** Claim C8.  After a [close] that returned normally, a second [close]
    returns normally as well and issues no request: it leaves the machine,
    wire included, as the first one left it.  The machine is arbitrary, so
    this covers a driver that never got an alert monitor. *)
Theorem close_idempotent (t : Transport) (m : Machine) :
  fst (close t m) = Returned tt ->
  let m1 := snd (close t m) in
  close t m1 = (Returned tt, m1) /\ issued m1 (snd (close t m1)) = [].
Proof.
  intros H m1. destruct (close_releases t m H) as [Hio Hmon].
  assert (E : close t m1 = (Returned tt, m1))
    by (apply close_released; assumption).
  split; [exact E |]. rewrite E. apply issued_same. reflexivity.
Qed.

(** Closing twice a constructed driver without alert monitor, and a
    driver that holds nothing but the bus. *)
Lemma close_idempotent_witness :
  (monitor (constructed x01 []) = false
   /\ let m1 := snd (close (steady x01 []) (constructed x01 [])) in
      close (steady x01 []) m1 = (Returned tt, m1)
      /\ issued m1 (snd (close (steady x01 []) m1)) = [])
  /\ (let m1 := snd (close (steady x01 []) partiallyInitialized) in
      close (steady x01 []) m1 = (Returned tt, m1)
      /\ issued m1 (snd (close (steady x01 []) m1)) = []).
Proof.
  split; [split; [reflexivity |] |].
  - apply (close_idempotent (steady x01 []) (constructed x01 [])).
    reflexivity.
  - apply (close_idempotent (steady x01 []) partiallyInitialized).
    reflexivity.
Defined.

(** * Gains *)

(** Claim C9.  When [configure({alsGain: 4, proximityGain: 8})] returns
    normally, the configuration accessor reports [alsGain = 4] and
    [proximityGain = 8], and the call issued exactly one request: the write
    of 0b1101 to CONTROLONE. *)
Theorem configure_gains_round_trip (t : Transport) (m : Machine) :
  fst (configure t (justGains (Some 4) (Some 8)) m) = Returned tt ->
  let m' := snd (configure t (justGains (Some 4) (Some 8)) m) in
  (exists c,
      fst (getConfiguration m') = Returned c
      /\ Configuration.alsGain c = 4
      /\ Configuration.proximityGain c = 8)
  /\ issued m m' = [WriteUint8 Register.CONTROLONE 13]
  /\ 13 = Z.lor 1 (Z.shiftl 3 2).
Proof.
  unfold_configure.
  unfold bind, when, whenDefined, modifyConfiguration, modify, gets, ret,
    writeUint8, transact, getConfiguration. simpl.
  destruct (io m) eqn:Hio; simpl; [| discriminate].
  destruct (acknowledge t (wire m) (WriteUint8 Register.CONTROLONE 13));
    simpl; [| discriminate].
  intros _. split; [| split].
  - eexists. split; [reflexivity |]. split; reflexivity.
  - apply issued_app. reflexivity.
  - reflexivity.
Qed.

Lemma configure_gains_round_trip_witness :
  let t := steady x01 [] in
  let m := constructed x01 [] in
  let m' := snd (configure t (justGains (Some 4) (Some 8)) m) in
  fst (configure t (justGains (Some 4) (Some 8)) m) = Returned tt
  /\ (exists c,
         fst (getConfiguration m') = Returned c
         /\ Configuration.alsGain c = 4
         /\ Configuration.proximityGain c = 8)
  /\ issued m m' = [WriteUint8 Register.CONTROLONE 13]
  /\ 13 = Z.lor 1 (Z.shiftl 3 2).
Proof.
  cbv zeta. split; [reflexivity |].
  apply (configure_gains_round_trip (steady x01 []) (constructed x01 [])).
  reflexivity.
Defined.

(** Property X7.  The part of the gain contract that the code keeps: a
    call carrying an unsupported gain, whatever else it carries, throws an
    [Error] and puts nothing on the wire. *)
Lemma configure_rejects_gain (t : Transport) (o : Options.t) (m : Machine) :
  (exists g, Options.alsGain o = Some g
             /\ g <> 1 /\ g <> 4 /\ g <> 16 /\ g <> 64)
  \/ (exists g, Options.proximityGain o = Some g
                /\ g <> 1 /\ g <> 2 /\ g <> 4 /\ g <> 8) ->
  (exists message, fst (configure t o m) = Thrown (Error message))
  /\ issued m (snd (configure t o m)) = [].
Proof.
  intros H. unfold configure at 1 2.
  unfold bind at 1 3.
  unfold storeFlagsAndGains, bind, whenDefined, modifyConfiguration, modify,
    ret.
  unfold writeGains, when, bind, gets, alsGainField, proximityGainField,
    ret, throw.
  destruct H as [(g & Hg & H1 & H2 & H3 & H4) | (g & Hg & H1 & H2 & H3 & H4)];
    rewrite Hg;
    destruct (Options.enableALS o), (Options.on o); simpl.
  all: try (destruct (Options.proximityGain o); simpl).
  all: try (destruct (Options.alsGain o); simpl).
  all: repeat match goal with
         | |- context [?a =? ?b] =>
             destruct (Z.eqb_spec a b); try contradiction; simpl
         end.
  all: try (split; [eexists; reflexivity | apply issued_same; reflexivity]).
  all: try (exfalso; congruence).
Qed.

(** The part it does not keep: a present [alsGain] option is in the mirror
    after the call, supported or not, on every machine. *)
Lemma configure_stores_alsGain (t : Transport) (o : Options.t) (m : Machine)
    (g : Z) :
  Options.alsGain o = Some g ->
  Configuration.alsGain (configuration (snd (configure t o m))) = g.
Proof.
  intros Hg. unfold configure. unfold bind at 1.
  assert (S : fst (storeFlagsAndGains o m) = Returned tt
              /\ Configuration.alsGain
                   (configuration (snd (storeFlagsAndGains o m))) = g).
  { unfold storeFlagsAndGains, bind, whenDefined, modifyConfiguration,
      modify, ret.
    rewrite Hg.
    destruct (Options.enableALS o), (Options.on o),
      (Options.proximityGain o); simpl; split; reflexivity. }
  destruct (storeFlagsAndGains o m) as [[[] | e] m1]; simpl in S;
    destruct S as [S1 S2]; [| discriminate S1].
  rewrite <- S2. clear S1 S2.
  revert m1.
  change (respects
            (keeps (fun m1 => Configuration.alsGain (configuration m1)))
            (writeGains t o ;; configureIntegration t o ;;
             configureThresholds t o ;; configurePersistence t o ;;
             deriveInterruptEnable t o ;; writeEnable t o)) .
  unfold writeGains, configureIntegration, configureThresholds,
    configurePersistence, deriveInterruptEnable, writeEnable.
  walk; reflexivity.
Qed.

(** Claim C1.  The code departs from the claim on the stored value.  On a
    freshly constructed driver, [configure({alsGain: 3})] throws and writes
    nothing to CONTROLONE, as claimed, but the mirror now holds the rejected
    gain 3 instead of the former 1 (line 137 stores before line 162
    rejects); a later [configure({proximityGain: 2})], which is legal,
    is then refused for the stale ALS gain. *)
Theorem configure_stores_rejected_gain :
  let t := steady x01 [] in
  let m := constructed x01 [] in
  let m' := snd (configure t (justGains (Some 3) None) m) in
  fst (configure t (justGains (Some 3) None) m)
  = Thrown (Error "invalid alsGain setting")
  /\ writes Register.CONTROLONE (issued m m') = []
  /\ Configuration.alsGain (configuration m) = 1
  /\ Configuration.alsGain (configuration m') = 3
  /\ fst (configure t (justGains None (Some 2)) m')
     = Thrown (Error "invalid alsGain setting").
Proof. cbv zeta. repeat split. Qed.

(** * Integration cycles *)

#[local] Arguments Z.add : simpl never.
#[local] Arguments Z.sub : simpl never.
#[local] Arguments Z.mul : simpl never.
#[local] Arguments Z.div : simpl never.
#[local] Arguments Z.ltb : simpl never.
#[local] Arguments Z.gtb : simpl never.
#[local] Arguments Z.leb : simpl never.

Ltac run_configure :=
  unfold_configure;
  unfold bind, when, whenDefined, modifyConfiguration, modify, gets, ret,
    throw, writeUint8, writeUint16, transact, readUint8; simpl.

(** Inside the accepted range the call stores the count, sets the ceiling
    to [1025 * c] and writes [256 - c] to ATIME. *)
Lemma configure_alsIntegrationCycles_accepted
    (t : Transport) (m : Machine) (c : Z) :
  0 <= c <= 256 ->
  io m = true ->
  acknowledge t (wire m) (WriteUint8 Register.ATIME (256 - c)) = true ->
  let m' := snd (configure t (justAlsIntegrationCycles c) m) in
  fst (configure t (justAlsIntegrationCycles c) m) = Returned tt
  /\ issued m m' = [WriteUint8 Register.ATIME (256 - c)]
  /\ maxCount m' = 1025 * c
  /\ Configuration.alsIntegrationCycles (configuration m') = c.
Proof.
  intros Hc Hio Hack. run_configure.
  replace ((c >? 256) || (c <? 0)) with false by
    (symmetry; apply orb_false_iff; rewrite Z.gtb_ltb, !Z.ltb_ge; lia).
  simpl. rewrite Hio. simpl. rewrite Hack. simpl.
  repeat split. apply issued_app. reflexivity.
Qed.

(** Property X9.  For a count below 0 or above 256,
    [configure({alsIntegrationCycles: c})] throws
    [Error("invalid alsIntegrationCycles setting")] and changes nothing:
    the machine, wire included, is as it was. *)
Lemma configure_alsIntegrationCycles_rejected
    (t : Transport) (m : Machine) (c : Z) :
  c < 0 \/ 256 < c ->
  configure t (justAlsIntegrationCycles c) m
  = (Thrown (Error "invalid alsIntegrationCycles setting"), m).
Proof.
  intros Hc. run_configure.
  replace ((c >? 256) || (c <? 0)) with true.
  - reflexivity.
  - symmetry. apply orb_true_iff. rewrite Z.gtb_ltb, !Z.ltb_lt. lia.
Qed.

(** Claim C2.  The code departs from the claim at [c = 0], which lies
    outside [1, 256]: the guard of line 188 tests [< 0], so
    [configure({alsIntegrationCycles: 0})] returns normally, stores 0,
    passes 256 (not a byte) to the write of ATIME and sets the saturation
    ceiling to 0; the next [sample] then divides by zero. *)
Theorem configure_accepts_zero_cycles :
  let block := [xff; x00; x00; x00; x00; x00; x00; x00] in
  let t := steady x01 block in
  let m := constructed x01 block in
  let m' := snd (configure t (justAlsIntegrationCycles 0) m) in
  fst (configure t (justAlsIntegrationCycles 0) m) = Returned tt
  /\ issued m m' = [WriteUint8 Register.ATIME 256]
  /\ maxCount m = 10250
  /\ maxCount m' = 0
  /\ Configuration.alsIntegrationCycles (configuration m') = 0
  /\ fst (sample t m')
     = Returned (Some {| lightmeter := Some
         {| clear := PositiveInfinity; red := NotANumber;
            green := NotANumber; blue := NotANumber |} |}).
Proof. cbv zeta. repeat split. Qed.

(** * Persistence *)

#[local] Arguments apersFromCycles : simpl never.
#[local] Arguments shl : simpl never.
#[local] Arguments bor : simpl never.
#[local] Arguments toInt32 : simpl never.

Lemma apersFromCycles_small (p : Z) :
  0 <= p <= 3 -> apersFromCycles p = Some p.
Proof.
  intros H. unfold apersFromCycles.
  replace (p <? 0) with false by (symmetry; apply Z.ltb_ge; lia).
  replace (p >? 60) with false by
    (symmetry; rewrite Z.gtb_ltb; apply Z.ltb_ge; lia).
  replace (p >? 3) with false by
    (symmetry; rewrite Z.gtb_ltb; apply Z.ltb_ge; lia).
  replace (p <=? 3) with true by (symmetry; apply Z.leb_le; lia).
  reflexivity.
Qed.

Lemma apersFromCycles_fives (p : Z) :
  5 <= p <= 60 -> p mod 5 = 0 -> apersFromCycles p = Some (p / 5 + 3).
Proof.
  intros H H5. unfold apersFromCycles.
  replace (p <? 0) with false by (symmetry; apply Z.ltb_ge; lia).
  replace (p >? 60) with false by
    (symmetry; rewrite Z.gtb_ltb; apply Z.ltb_ge; lia).
  rewrite Z.rem_mod_nonneg, H5 by lia.
  replace (p <=? 3) with false by (symmetry; apply Z.leb_gt; lia).
  rewrite andb_false_r. reflexivity.
Qed.

Lemma apersFromCycles_illegal (p : Z) :
  p < 0 \/ 60 < p \/ (3 < p /\ p mod 5 <> 0) -> apersFromCycles p = None.
Proof.
  intros H. unfold apersFromCycles.
  destruct (Z.ltb_spec p 0); [reflexivity |].
  rewrite Z.gtb_ltb. destruct (Z.ltb_spec 60 p); [reflexivity |].
  simpl. rewrite Z.gtb_ltb.
  destruct H as [H | [H | [H3 H5]]]; try lia.
  replace (3 <? p) with true by (symmetry; apply Z.ltb_lt; lia).
  rewrite Z.rem_mod_nonneg by lia.
  destruct (Z.eqb_spec (p mod 5) 0); [contradiction | reflexivity].
Qed.

Lemma toInt32_mod16 (z : Z) : toInt32 z mod 16 = z mod 16.
Proof.
  unfold toInt32. cbv zeta.
  assert (E : (z mod 2 ^ 32) mod 16 = z mod 16).
  { apply Z.mod_mod_divide. exists (2 ^ 28). reflexivity. }
  destruct (z mod 2 ^ 32 <? 2 ^ 31); [exact E |].
  replace (z mod 2 ^ 32 - 2 ^ 32)
    with (z mod 2 ^ 32 + (- 2 ^ 28) * 16) by lia.
  rewrite Z_mod_plus_full. exact E.
Qed.

(** In [PPERS | APERS] the low four bits are those of [APERS]. *)
Lemma persistence_low_nibble (stored : option Z) (a : Z) :
  0 <= a <= 15 -> Z.land (bor (shl stored 4) (Some a)) 15 = a.
Proof.
  intros Ha. unfold bor, shl. simpl toInt32'.
  rewrite Z.land_lor_distr_l.
  change 15 with (Z.ones 4). rewrite !Z.land_ones by lia.
  change (2 ^ 4) with 16. rewrite !toInt32_mod16.
  change (Z.land 4 31) with 4.
  rewrite Z.shiftl_mul_pow2 by lia. change (2 ^ 4) with 16.
  rewrite Z_mod_mult. rewrite Z.mod_small by lia. reflexivity.
Qed.

Lemma configure_alsThresholdPersistence_written
    (t : Transport) (m : Machine) (p a : Z) :
  apersFromCycles p = Some a -> 0 <= a <= 15 -> io m = true ->
  exists v,
    issued m (snd (configure t (justAlsThresholdPersistence p) m))
    = [WriteUint8 Register.PERS v]
    /\ Z.land v 15 = a.
Proof.
  intros Hp Ha Hio. run_configure. rewrite Hp. simpl. rewrite Hio. simpl.
  destruct (acknowledge t _ _); simpl;
    (eexists; split;
      [apply issued_app; reflexivity
      | apply persistence_low_nibble; exact Ha]).
Qed.

(** Claim C3.  For [configure({alsThresholdPersistence: p})] on an open
    driver: when [p] is 0, 1, 2 or 3 the call issues one write of PERS whose
    low nibble is [p]; when [p] is a multiple of 5 from 5 to 60 it issues
    one write of PERS whose low nibble is [p / 5 + 3]; for every other
    integer the call throws a [RangeError] and leaves the machine as it
    was, so nothing is written. *)
Theorem configure_alsThresholdPersistence_encoding
    (t : Transport) (m : Machine) (p : Z) :
  let call := configure t (justAlsThresholdPersistence p) m in
  (0 <= p <= 3 -> io m = true ->
     exists v, issued m (snd call) = [WriteUint8 Register.PERS v]
               /\ Z.land v 15 = p)
  /\ (5 <= p <= 60 -> p mod 5 = 0 -> io m = true ->
        exists v, issued m (snd call) = [WriteUint8 Register.PERS v]
                  /\ Z.land v 15 = p / 5 + 3)
  /\ (p < 0 \/ 60 < p \/ (3 < p /\ p mod 5 <> 0) ->
        call = (Thrown (RangeError "invalid alsThresholdPersistence"), m)
        /\ issued m (snd call) = []).
Proof.
  cbv zeta. split; [| split].
  - intros Hp Hio.
    apply (configure_alsThresholdPersistence_written t m p p);
      [apply apersFromCycles_small; exact Hp | lia | exact Hio].
  - intros Hp H5 Hio.
    apply (configure_alsThresholdPersistence_written t m p (p / 5 + 3));
      [apply apersFromCycles_fives; assumption | | exact Hio].
    assert (0 <= p / 5 <= 12); [| lia].
    split; [apply Z.div_pos; lia | apply Z.div_le_upper_bound; lia].
  - intros Hp.
    assert (E : configure t (justAlsThresholdPersistence p) m
                = (Thrown (RangeError "invalid alsThresholdPersistence"), m)).
    { run_configure. rewrite (apersFromCycles_illegal p Hp). reflexivity. }
    rewrite E. split; [reflexivity | apply issued_same; reflexivity].
Qed.

(** A driver built on the steady bus stores proximity persistence 1, so
    the three cases write 0x12, write 0x1F and throw. *)
Lemma configure_alsThresholdPersistence_encoding_witness :
  let t := steady x01 [] in
  let m := constructed x01 [] in
  (exists v,
      issued m (snd (configure t (justAlsThresholdPersistence 2) m))
      = [WriteUint8 Register.PERS v] /\ Z.land v 15 = 2)
  /\ (exists v,
         issued m (snd (configure t (justAlsThresholdPersistence 60) m))
         = [WriteUint8 Register.PERS v] /\ Z.land v 15 = 15)
  /\ (configure t (justAlsThresholdPersistence 4) m
      = (Thrown (RangeError "invalid alsThresholdPersistence"), m)
      /\ issued m (snd (configure t (justAlsThresholdPersistence 4) m)) = []).
Proof.
  cbv zeta. split; [| split].
  - apply (proj1 (configure_alsThresholdPersistence_encoding
                    (steady x01 []) (constructed x01 []) 2));
      [lia | reflexivity].
  - apply (proj1 (proj2 (configure_alsThresholdPersistence_encoding
                           (steady x01 []) (constructed x01 []) 60)));
      [lia | reflexivity | reflexivity].
  - apply (proj2 (proj2 (configure_alsThresholdPersistence_encoding
                           (steady x01 []) (constructed x01 []) 4))).
    right. right. split; [lia | discriminate].
Defined.

(** A relation respected by each of the seven steps of [configure] is
    respected by the call. *)
Lemma configure_phases (R : Machine -> Machine -> Prop) `{!PreOrder R}
    (t : Transport) (o : Options.t) :
  respects R (storeFlagsAndGains o) ->
  respects R (writeGains t o) ->
  respects R (configureIntegration t o) ->
  respects R (configureThresholds t o) ->
  respects R (configurePersistence t o) ->
  respects R (deriveInterruptEnable t o) ->
  respects R (writeEnable t o) ->
  respects R (configure t o).
Proof.
  intros H1 H2 H3 H4 H5 H6 H7. unfold configure.
  apply respects_bind; [exact H1 | intros _].
  apply respects_bind; [exact H2 | intros _].
  apply respects_bind; [exact H3 | intros _].
  apply respects_bind; [exact H4 | intros _].
  apply respects_bind; [exact H5 | intros _].
  apply respects_bind; [exact H6 | intros _].
  exact H7.
Qed.

(** The same encoding in a call that carries other options too: whatever
    else the call does, a write of PERS it issues has the code of [p] in its
    low nibble. *)
Lemma configure_persistence_nibble_any_call
    (t : Transport) (o : Options.t) (p a : Z) :
  Options.alsThresholdPersistence o = Some p ->
  apersFromCycles p = Some a -> 0 <= a <= 15 ->
  respects
    (quiet (fun q => writesTo Register.PERS q = true ->
                     exists v, q = WriteUint8 Register.PERS v
                               /\ Z.land v 15 = a))
    (configure t o).
Proof.
  intros Ho Hp Ha. apply (@configure_phases _ (quiet_PreOrder _) t o).
  5: {
    intros m. unfold configurePersistence.
    rewrite Ho, Hp, orb_true_r.
    unfold when, whenDefined, bind, modifyConfiguration, modify, gets, ret,
      throw, writeUint8, transact. simpl.
    destruct (Options.proximityThresholdPersistence o) as [pp |]; simpl;
      [destruct ((pp <? 0) || (pp >? 15)); simpl |];
      try (apply quiet_same; reflexivity);
      (destruct (io m); simpl; [| apply quiet_same; reflexivity]);
      (eapply quiet_issue; [| reflexivity]);
      (intros _; eexists; split;
        [reflexivity | apply persistence_low_nibble; exact Ha]). }
  all: unfold storeFlagsAndGains, writeGains, configureIntegration,
         configureThresholds, deriveInterruptEnable, writeEnable.
  all: walk;
    lazymatch goal with
    | |- quiet _ _ (issue ?r _) =>
        apply (quiet_issue _ r);
          [intros W; discriminate W | reflexivity]
    | |- quiet _ _ _ => apply quiet_same; reflexivity
    end.
Qed.

(** Property X14.  With an illegal [alsThresholdPersistence] a call that
    carries other options throws as well, possibly earlier and for another
    reason, and writes nothing to PERS. *)
Lemma configure_persistence_rejected_any_call
    (t : Transport) (o : Options.t) (m : Machine) (p : Z) :
  Options.alsThresholdPersistence o = Some p ->
  apersFromCycles p = None ->
  (exists e, fst (configure t o m) = Thrown e)
  /\ writes Register.PERS (issued m (snd (configure t o m))) = [].
Proof.
  intros Ho Hp. split.
  - unfold configure, bind.
    destruct (storeFlagsAndGains o m) as [[[] | e] m1];
      [| eexists; reflexivity].
    destruct (writeGains t o m1) as [[[] | e] m2];
      [| eexists; reflexivity].
    destruct (configureIntegration t o m2) as [[[] | e] m3];
      [| eexists; reflexivity].
    destruct (configureThresholds t o m3) as [[[] | e] m4];
      [| eexists; reflexivity].
    unfold configurePersistence. rewrite Ho, Hp, orb_true_r.
    eexists. reflexivity.
  - unfold writes. apply filter_none. apply quiet_issued.
    revert m.
    change (respects (quiet (fun r => writesTo Register.PERS r = false))
              (configure t o)).
    apply (@configure_phases _ (quiet_PreOrder _) t o).
    5: {
      intros m. unfold configurePersistence. rewrite Ho, Hp, orb_true_r.
      apply quiet_same. reflexivity. }
    all: unfold storeFlagsAndGains, writeGains, configureIntegration,
           configureThresholds, deriveInterruptEnable, writeEnable.
    all: walk;
      lazymatch goal with
      | |- quiet _ _ (issue ?r _) =>
          apply (quiet_issue _ r); reflexivity
      | |- quiet _ _ _ => apply quiet_same; reflexivity
      end.
Qed.

(** * Threshold pair and ALS interrupt enable *)

Lemma bind_returned {A B} (c : M A) (k : A -> M B) (m : Machine) (b : B) :
  fst (bind c k m) = Returned b ->
  exists a, fst (c m) = Returned a /\ bind c k m = k a (snd (c m)).
Proof.
  unfold bind. destruct (c m) as [[a | e] m1]; simpl.
  - intros _. exists a. split; reflexivity.
  - discriminate.
Qed.

(** Lines 234-239 leave the flag in agreement with the stored pair, whether
    or not the interrupt-clearing read of line 240 then faults. *)
Lemma deriveInterruptEnable_flag (t : Transport) (o : Options.t)
    (m : Machine) :
  defined (Options.alsThresholdLow o) || defined (Options.alsThresholdHigh o)
  = true ->
  let c := configuration (snd (deriveInterruptEnable t o m)) in
  Enabled.AIEN (Configuration.enabled c) = false <-> sentinelPair c.
Proof.
  intros G. unfold deriveInterruptEnable. rewrite G.
  unfold when, bind, gets, modifyConfiguration, modify, readUint8, ret,
    sentinelPair, strictlyEquals.
  destruct (Configuration.alsThresholdHigh (configuration m)) as [h |] eqn:Hh;
    destruct (Configuration.alsThresholdLow (configuration m)) as [l |] eqn:Hl;
    try destruct (Z.eqb_spec h 0xFFFF); try destruct (Z.eqb_spec l 0);
    simpl; destruct (io m); simpl;
    try destruct (answerUint8 t (wire m) 231); simpl;
    rewrite ?Hh, ?Hl; subst;
    (split; [discriminate || congruence || (intros _; split; reflexivity)
            | intros [E1 E2]; congruence || reflexivity]).
Qed.

Lemma writeEnable_keeps_configuration (t : Transport) (o : Options.t) :
  respects (keeps configuration) (writeEnable t o).
Proof. unfold writeEnable. walk; reflexivity. Qed.

(** Claim C4, as the code has it.  After every call of [configure] that
    carries [alsThresholdLow] or [alsThresholdHigh] and returns normally,
    the stored ALS-interrupt-enable flag is false exactly when the stored
    pair is (0, 0xFFFF), and true for every other stored pair. *)
Theorem configure_derives_interrupt_enable
    (t : Transport) (o : Options.t) (m : Machine) :
  defined (Options.alsThresholdLow o) || defined (Options.alsThresholdHigh o)
  = true ->
  fst (configure t o m) = Returned tt ->
  let c := configuration (snd (configure t o m)) in
  (Enabled.AIEN (Configuration.enabled c) = false <-> sentinelPair c)
  /\ (~ sentinelPair c -> Enabled.AIEN (Configuration.enabled c) = true).
Proof.
  intros G H.
  assert (K : let c := configuration (snd (configure t o m)) in
              Enabled.AIEN (Configuration.enabled c) = false
              <-> sentinelPair c).
  { unfold configure in *.
    repeat match type of H with
           | fst (bind ?c ?k ?m0) = Returned _ =>
               let a := fresh "a" in
               let Ha := fresh "Ha" in
               let E := fresh "E" in
               destruct (bind_returned c k m0 _ H) as (a & Ha & E);
               rewrite E in H |- *; clear E Ha; destruct a
           end.
    match goal with
    | |- context [writeEnable t o ?m6] =>
        cbv zeta; rewrite (writeEnable_keeps_configuration t o m6)
    end.
    apply deriveInterruptEnable_flag. exact G. }
  cbv zeta in *. split; [exact K |].
  intros N. destruct (Enabled.AIEN _) eqn:E; [reflexivity |].
  exfalso. apply N. apply K. reflexivity.
Qed.

(** On a constructed driver, [configure({alsThresholdLow: 0,
    alsThresholdHigh: 0xFFFF})] switches the flag off, and
    [configure({alsThresholdLow: 5})] switches it on. *)
Lemma configure_derives_interrupt_enable_witness :
  let t := steady x01 [] in
  let m := constructed x01 [] in
  let off := configuration
               (snd (configure t (justThresholds (Some 0) (Some 0xFFFF)) m)) in
  let on := configuration
              (snd (configure t (justThresholds (Some 5) None) m)) in
  (sentinelPair off /\ Enabled.AIEN (Configuration.enabled off) = false)
  /\ (~ sentinelPair on /\ Enabled.AIEN (Configuration.enabled on) = true).
Proof.
  cbv zeta.
  assert (S1 : sentinelPair
                 (configuration
                    (snd (configure (steady x01 [])
                            (justThresholds (Some 0) (Some 0xFFFF))
                            (constructed x01 [])))))
    by (split; reflexivity).
  assert (S2 : ~ sentinelPair
                   (configuration
                      (snd (configure (steady x01 [])
                              (justThresholds (Some 5) None)
                              (constructed x01 [])))))
    by (intros [E _]; discriminate E).
  split; split.
  - exact S1.
  - apply (proj1 (configure_derives_interrupt_enable (steady x01 [])
                    (justThresholds (Some 0) (Some 0xFFFF))
                    (constructed x01 []) eq_refl eq_refl)).
    exact S1.
  - exact S2.
  - apply (proj2 (configure_derives_interrupt_enable (steady x01 [])
                    (justThresholds (Some 5) None)
                    (constructed x01 []) eq_refl eq_refl)).
    exact S2.
Defined.

(** Claim C4, as stated, fails on a call that throws after it stored a
    bound.  On a driver whose stored pair is (5, 0xFFFF), with the flag
    true, [configure({alsThresholdLow: 0, alsThresholdHigh: 0x10000})]
    stores and writes the low bound 0, then rejects the high bound at
    line 208: the stored pair is now (0, 0xFFFF) while the flag, never
    recomputed, is still true. *)
Lemma configure_stale_interrupt_enable :
  let t := steady x01 [] in
  let call := configure t (justThresholds (Some 0) (Some 0x10000)) armed in
  let c := configuration (snd call) in
  Configuration.alsThresholdLow (configuration armed) = Some 5
  /\ fst call = Thrown (RangeError "invalid thresholdHigh")
  /\ issued armed (snd call) = [WriteUint16 Register.AILTL 0]
  /\ sentinelPair c
  /\ Enabled.AIEN (Configuration.enabled c) = true
  /\ ~ (Enabled.AIEN (Configuration.enabled c) = false <-> sentinelPair c).
Proof.
  cbv zeta.
  split; [reflexivity |]. split; [reflexivity |]. split; [reflexivity |].
  split; [split; reflexivity |]. split; [reflexivity |].
  intros [_ H]. discriminate H. split; reflexivity.
Qed.

(** * [sample] on a powered driver *)

#[local] Arguments Z.shiftl : simpl never.
#[local] Arguments Z.lor : simpl never.
#[local] Arguments Z.land : simpl never.

Lemma byteZ_range (b : byte) : 0 <= byteZ b < 256.
Proof.
  unfold byteZ. pose proof (Byte.to_N_bounded b) as H. lia.
Qed.

Lemma lor_shiftl_8 (lo hi : Z) :
  0 <= lo < 256 -> Z.lor lo (Z.shiftl hi 8) = lo + 256 * hi.
Proof.
  intros Hlo. rewrite Z.shiftl_mul_pow2 by lia.
  assert (N : Z.land lo (hi * 2 ^ 8) = 0).
  { apply Z.bits_inj'. intros n Hn. rewrite Z.land_spec, Z.bits_0.
    destruct (Z.lt_ge_cases n 8) as [Hlt | Hge].
    - rewrite Z.mul_pow2_bits_low by lia. apply andb_false_r.
    - destruct (Z.eq_dec lo 0) as [-> | Hnz].
      + rewrite Z.bits_0. reflexivity.
      + rewrite (Z.bits_above_log2 lo n); [reflexivity | lia |].
        apply Z.log2_lt_pow2; [lia |].
        apply Z.lt_le_trans with (2 ^ 8); [lia |].
        apply Z.pow_le_mono_r; lia. }
  rewrite <- Z.lxor_lor, <- Z.add_nocarry_lxor by exact N. lia.
Qed.

Lemma littleEndian16_range (lo hi : byte) :
  0 <= littleEndian16 lo hi <= 0xFFFF.
Proof.
  unfold littleEndian16.
  pose proof (byteZ_range lo). pose proof (byteZ_range hi). lia.
Qed.

Lemma bit0_set (z : Z) :
  Z.testbit z 0 = true -> (Z.land z 1 =? 0) = false.
Proof.
  intros H. apply Z.eqb_neq.
  change 1 with (Z.ones 1). rewrite Z.land_ones by lia.
  change (2 ^ 1) with 2. rewrite <- Z.bit0_mod, H. discriminate.
Qed.

Lemma divide_inUnitInterval (n d : Z) :
  0 < d -> 0 <= n <= d -> inUnitInterval (divide n d).
Proof.
  intros Hd Hn. unfold divide.
  replace (d =? 0) with false by (symmetry; apply Z.eqb_neq; lia).
  destruct d as [| pd | pd]; try lia.
  unfold inUnitInterval, Qle, Qdiv, Qmult, Qinv, inject_Z. simpl.
  lia.
Qed.

(** What [sample] computes once the status read has reported fresh data
    and the burst read has delivered [f]. *)
Lemma sample_reads_channels (t : Transport) (m : Machine) (status : byte)
    (f : nat -> byte) :
  io m = true ->
  Enabled.PON (Configuration.enabled (configuration m)) = true ->
  Enabled.AEN (Configuration.enabled (configuration m)) = true ->
  answerUint8 t (wire m) Register.STATUS = Some status ->
  Z.testbit (byteZ status) 0 = true ->
  answerBuffer t (wire m ++ [ReadUint8 Register.STATUS]) Register.CDATAL 8
  = Some f ->
  let raw := fun i => littleEndian16 (f i) (f (S i)) in
  fst (sample t m)
  = Returned (Some {| lightmeter := Some
      {| clear := divide (raw 0%nat) (maxCount m);
         red := divide (raw 2%nat) (maxCount m);
         green := divide (raw 4%nat) (maxCount m);
         blue := divide (raw 6%nat) (maxCount m) |} |})
  /\ issued m (snd (sample t m))
     = [ReadUint8 Register.STATUS; ReadBuffer Register.CDATAL 8].
Proof.
  intros Hio Hpon Haen Hst Hbit Hbuf raw.
  unfold sample, bind, gets, readUint8, readBuffer, getUint16, modify, ret.
  rewrite Hpon, Haen. simpl. rewrite Hio, Hst. simpl.
  rewrite (bit0_set _ Hbit). simpl.
  unfold alsBlockLength. rewrite Hbuf, Hio. simpl.
  rewrite !lor_shiftl_8 by apply byteZ_range.
  split; [reflexivity |].
  apply issued_app. simpl. rewrite <- app_assoc. reflexivity.
Qed.

(** Claim C5, as the code has it.  On an open driver whose power-on and
    ALS-enable flags are both true, when the status read answers a byte
    with bit 0 set and the burst read delivers eight bytes, [sample] returns
    a light-meter reading whose clear, red, green and blue values are the
    four little-endian 16-bit counts, each divided by the current saturation
    ceiling.  A value lies in [0, 1] whenever the ceiling is positive and
    the count does not exceed it; the driver itself does not clamp. *)
Theorem sample_lightmeter_fractions (t : Transport) (m : Machine)
    (status : byte) (f : nat -> byte) :
  io m = true ->
  Enabled.PON (Configuration.enabled (configuration m)) = true ->
  Enabled.AEN (Configuration.enabled (configuration m)) = true ->
  answerUint8 t (wire m) Register.STATUS = Some status ->
  Z.testbit (byteZ status) 0 = true ->
  answerBuffer t (wire m ++ [ReadUint8 Register.STATUS]) Register.CDATAL 8
  = Some f ->
  let raw := fun i => littleEndian16 (f i) (f (S i)) in
  fst (sample t m)
  = Returned (Some {| lightmeter := Some
      {| clear := divide (raw 0%nat) (maxCount m);
         red := divide (raw 2%nat) (maxCount m);
         green := divide (raw 4%nat) (maxCount m);
         blue := divide (raw 6%nat) (maxCount m) |} |})
  /\ (forall i, 0 < maxCount m -> raw i <= maxCount m ->
                inUnitInterval (divide (raw i) (maxCount m))).
Proof.
  intros Hio Hpon Haen Hst Hbit Hbuf raw. split.
  - exact (proj1 (sample_reads_channels t m status f
                    Hio Hpon Haen Hst Hbit Hbuf)).
  - intros i Hc Hr. apply divide_inUnitInterval; [exact Hc |].
    split; [apply littleEndian16_range | exact Hr].
Qed.

(** A constructed driver (ceiling 10250) reading the counts 10000, 0, 1
    and 10250. *)
Lemma sample_lightmeter_fractions_witness :
  let block := [x10; x27; x00; x00; x01; x00; x0a; x28] in
  let t := steady x01 block in
  let m := constructed x01 block in
  fst (sample t m)
  = Returned (Some {| lightmeter := Some
      {| clear := divide 10000 10250;
         red := divide 0 10250;
         green := divide 1 10250;
         blue := divide 10250 10250 |} |})
  /\ inUnitInterval (divide 10000 10250)
  /\ inUnitInterval (divide 0 10250)
  /\ inUnitInterval (divide 1 10250)
  /\ inUnitInterval (divide 10250 10250).
Proof.
  cbv zeta.
  destruct (sample_lightmeter_fractions
              (steady x01 [x10; x27; x00; x00; x01; x00; x0a; x28])
              (constructed x01 [x10; x27; x00; x00; x01; x00; x0a; x28])
              x01
              (fun i => nth i [x10; x27; x00; x00; x01; x00; x0a; x28] x00)
              eq_refl eq_refl eq_refl eq_refl eq_refl eq_refl)
    as [E U].
  split; [exact E |].
  split; [apply (U 0%nat); [reflexivity | discriminate] |].
  split; [apply (U 2%nat); [reflexivity | discriminate] |].
  split; [apply (U 4%nat); [reflexivity | discriminate] |].
  apply (U 6%nat); [reflexivity | discriminate].
Defined.

(** Claim C5, as stated, fails.  On a constructed driver (ALS enabled,
    ceiling 10250) whose status read answers 0x01, a burst read that
    delivers the clear count 0xFFFF makes [sample] return
    [clear = 65535 / 10250], which is above 1.  And on a driver with the
    power-on flag false, ALS enabled and the same bus, [sample] returns
    [undefined]: there is no light-meter reading at all. *)
Lemma sample_fraction_above_one :
  let block := [xff; xff; x00; x00; x00; x00; x00; x00] in
  let t := steady x01 block in
  (let m := constructed x01 block in
   Enabled.AEN (Configuration.enabled (configuration m)) = true
   /\ answerUint8 t (wire m) Register.STATUS = Some x01
   /\ Z.testbit (byteZ x01) 0 = true
   /\ maxCount m = 10250
   /\ exists reading,
        fst (sample t m) = Returned (Some {| lightmeter := Some reading |})
        /\ clear reading = divide 65535 10250
        /\ ~ inUnitInterval (clear reading))
  /\ (let m := poweredOff x01 block in
      Enabled.AEN (Configuration.enabled (configuration m)) = true
      /\ answerUint8 t (wire m) Register.STATUS = Some x01
      /\ fst (sample t m) = Returned None).
Proof.
  cbv zeta. split.
  - split; [reflexivity |]. split; [reflexivity |]. split; [reflexivity |].
    split; [reflexivity |].
    exists {| clear := divide 65535 10250; red := divide 0 10250;
              green := divide 0 10250; blue := divide 0 10250 |}.
    split; [vm_compute; reflexivity |]. split; [reflexivity |].
    vm_compute. intros [_ H]. apply H. reflexivity.
  - split; [reflexivity |]. split; vm_compute; reflexivity.
Qed.

(** * Further properties of [configure] *)

(** Property X1.  [configure({})] does nothing: it returns normally and
    leaves the machine, wire included, as it was, even on a closed driver. *)
Theorem configure_nothing (t : Transport) (m : Machine) :
  configure t noOptions m = (Returned tt, m).
Proof. reflexivity. Qed.

Lemma traces_bind (c k : M unit) (l1 l2 : list Z) :
  traces c l1 -> traces k l2 -> traces (c ;; k) (l1 ++ l2).
Proof.
  intros Hc Hk m H.
  destruct (bind_returned c (fun _ => k) m tt H) as ([] & Ha & E).
  rewrite E in H |- *.
  destruct (Hc m Ha) as (d1 & W1 & T1).
  destruct (Hk (snd (c m)) H) as (d2 & W2 & T2).
  exists (d1 ++ d2). split.
  - rewrite W2, W1, app_assoc. reflexivity.
  - rewrite !map_app, T1, T2. reflexivity.
Qed.

(** Reads a trace off a step that has been evaluated. *)
Ltac trace_step :=
  let H := fresh in
  intros H;
  first
    [ discriminate H
    | clear H; simpl;
      first [ exists []; split; [now rewrite app_nil_r | reflexivity]
            | eexists [_]; split; reflexivity
            | eexists [_; _]; split;
                [rewrite <- app_assoc; reflexivity | reflexivity] ] ].

Ltac trace_cases :=
  simpl;
  repeat match goal with
         | |- context [if ?b then _ else _] => destruct b eqn:?; simpl
         | |- context [match ?x with Some _ => _ | None => _ end] =>
             destruct x eqn:?; simpl
         end;
  trace_step.

Lemma storeFlagsAndGains_traces (o : Options.t) :
  traces (storeFlagsAndGains o) [].
Proof.
  intros m. unfold storeFlagsAndGains, bind, whenDefined,
    modifyConfiguration, modify, ret.
  destruct (Options.enableALS o), (Options.on o), (Options.alsGain o),
    (Options.proximityGain o); trace_cases.
Qed.

Lemma writeGains_traces (t : Transport) (o : Options.t) :
  traces (writeGains t o)
    (if defined (Options.alsGain o) || defined (Options.proximityGain o)
     then [Register.CONTROLONE] else []).
Proof.
  intros m. unfold writeGains, when, bind, gets, alsGainField,
    proximityGainField, writeUint8, transact, ret, throw.
  destruct (defined (Options.alsGain o) || defined (Options.proximityGain o));
    trace_cases.
Qed.

Lemma configureIntegration_traces (t : Transport) (o : Options.t) :
  traces (configureIntegration t o)
    (if defined (Options.alsIntegrationCycles o)
     then [Register.ATIME] else []).
Proof.
  intros m. unfold configureIntegration, whenDefined, bind,
    modifyConfiguration, modify, writeUint8, transact, ret, throw.
  destruct (Options.alsIntegrationCycles o); trace_cases.
Qed.

Lemma configureThresholds_traces (t : Transport) (o : Options.t) :
  traces (configureThresholds t o)
    ((if defined (Options.alsThresholdLow o) then [Register.AILTL] else [])
     ++ (if defined (Options.alsThresholdHigh o)
         then [Register.AIHTL] else [])).
Proof.
  unfold configureThresholds. apply traces_bind.
  - intros m. unfold whenDefined, bind, modifyConfiguration, modify,
      writeUint16, transact, ret, throw.
    destruct (Options.alsThresholdLow o); trace_cases.
  - intros m. unfold whenDefined, bind, modifyConfiguration, modify,
      writeUint16, transact, ret, throw.
    destruct (Options.alsThresholdHigh o); trace_cases.
Qed.

Lemma configurePersistence_traces (t : Transport) (o : Options.t) :
  traces (configurePersistence t o)
    (if defined (Options.proximityThresholdPersistence o)
        || defined (Options.alsThresholdPersistence o)
     then [Register.PERS] else []).
Proof.
  intros m. unfold configurePersistence, when, whenDefined, bind, gets,
    modifyConfiguration, modify, writeUint8, transact, ret, throw.
  destruct (Options.proximityThresholdPersistence o),
    (Options.alsThresholdPersistence o); trace_cases.
Qed.

Lemma deriveInterruptEnable_traces (t : Transport) (o : Options.t) :
  traces (deriveInterruptEnable t o)
    (if defined (Options.alsThresholdLow o)
        || defined (Options.alsThresholdHigh o)
     then [0xE7] else []).
Proof.
  intros m. unfold deriveInterruptEnable, when, bind, gets,
    modifyConfiguration, modify, readUint8, ret.
  destruct (defined (Options.alsThresholdLow o)
            || defined (Options.alsThresholdHigh o)); trace_cases.
Qed.

Lemma writeEnable_traces (t : Transport) (o : Options.t) :
  traces (writeEnable t o)
    (if defined (Options.on o) || defined (Options.enableALS o)
        || defined (Options.alsThresholdLow o)
        || defined (Options.alsThresholdHigh o)
     then [Register.ENABLE] else []).
Proof.
  intros m. unfold writeEnable, when, bind, gets, writeUint8, transact, ret.
  destruct (defined (Options.on o) || defined (Options.enableALS o)
            || defined (Options.alsThresholdLow o)
            || defined (Options.alsThresholdHigh o)); trace_cases.
Qed.

Lemma configure_traces (t : Transport) (o : Options.t) :
  traces (configure t o) (touched o).
Proof.
  unfold configure, touched.
  change (traces (storeFlagsAndGains o ;; writeGains t o ;;
                  configureIntegration t o ;; configureThresholds t o ;;
                  configurePersistence t o ;; deriveInterruptEnable t o ;;
                  writeEnable t o)
            ([] ++ touched o)).
  unfold touched.
  apply traces_bind; [apply storeFlagsAndGains_traces |].
  apply traces_bind; [apply writeGains_traces |].
  apply traces_bind; [apply configureIntegration_traces |].
  rewrite app_assoc.
  apply traces_bind; [apply configureThresholds_traces |].
  apply traces_bind; [apply configurePersistence_traces |].
  apply traces_bind; [apply deriveInterruptEnable_traces |].
  apply writeEnable_traces.
Qed.

(** Property X2.  A call of [configure] that returns normally has
    addressed, in this order and once each, exactly those of CONTROLONE,
    ATIME, AILTL, AIHTL, PERS, the interrupt-clearing register 0xE7 and
    ENABLE whose options are present in the call. *)
Theorem configure_addresses_in_order
    (t : Transport) (o : Options.t) (m : Machine) :
  fst (configure t o m) = Returned tt ->
  map target (issued m (snd (configure t o m))) = map Some (touched o).
Proof.
  intros H. destruct (configure_traces t o m H) as (d & W & T).
  rewrite (issued_app _ _ _ W). exact T.
Qed.

(** The constructor's own call on a steady bus. *)
Lemma configure_addresses_in_order_witness :
  let t := steady x01 [] in
  let m := snd (modify (withIo true) initial) in
  fst (configure t defaults m) = Returned tt
  /\ map target (issued m (snd (configure t defaults m)))
     = [Some Register.CONTROLONE; Some Register.ATIME; Some Register.AILTL;
        Some Register.AIHTL; Some Register.PERS; Some 0xE7;
        Some Register.ENABLE].
Proof.
  cbv zeta. split; [reflexivity |].
  apply (configure_addresses_in_order (steady x01 []) defaults
           (snd (modify (withIo true) initial))).
  reflexivity.
Defined.

Lemma enableByte_range (e : Enabled.t) : 0 <= enableByte e <= 127.
Proof.
  destruct e as [g pi ai w pe ae po].
  destruct g, pi, ai, w, pe, ae, po; vm_compute; split; discriminate.
Qed.

Lemma leb_range (v lo hi : Z) :
  (v <? lo) || (v >? hi) = false -> lo <= v <= hi.
Proof.
  intros H. apply orb_false_iff in H. destruct H as [H1 H2].
  apply Z.ltb_ge in H1. rewrite Z.gtb_ltb in H2. apply Z.ltb_ge in H2. lia.
Qed.

Lemma writeGains_requests (t : Transport) (o : Options.t) :
  respects (quiet configureRequest) (writeGains t o).
Proof.
  intros m. unfold writeGains, when, bind, gets, alsGainField,
    proximityGainField, writeUint8, transact, ret, throw.
  destruct (defined (Options.alsGain o) || defined (Options.proximityGain o));
    simpl; [| apply quiet_same; reflexivity].
  repeat match goal with
         | |- context [if ?b then _ else _] => destruct b eqn:?; simpl
         end;
    try (apply quiet_same; reflexivity);
    (eapply quiet_issue; [| reflexivity]);
    left; (split; [reflexivity | vm_compute; split; discriminate]).
Qed.

Lemma configure_requests (t : Transport) (o : Options.t) :
  respects (quiet configureRequest) (configure t o).
Proof.
  apply (@configure_phases _ (quiet_PreOrder _) t o);
    [ | apply writeGains_requests | | | | | ].
  all: unfold storeFlagsAndGains, configureIntegration, configureThresholds,
         configurePersistence, deriveInterruptEnable, writeEnable.
  all: walk;
    lazymatch goal with
    | |- quiet _ _ (issue (WriteUint16 ?reg ?v) _) =>
        apply (quiet_issue _ (WriteUint16 reg v)); [| reflexivity];
        split; [auto | apply leb_range; assumption]
    | |- quiet _ _ (issue (WriteUint8 Register.ENABLE ?v) _) =>
        apply (quiet_issue _ (WriteUint8 Register.ENABLE v));
          [| reflexivity];
        right; right; right; split;
          [reflexivity | apply enableByte_range]
    | |- quiet _ _ (issue (WriteUint8 ?reg ?v) _) =>
        apply (quiet_issue _ (WriteUint8 reg v)); [| reflexivity];
        simpl; auto
    | |- quiet _ _ (issue (ReadUint8 ?reg) _) =>
        apply (quiet_issue _ (ReadUint8 reg)); reflexivity
    | |- quiet _ _ _ => apply quiet_same; reflexivity
    end.
Qed.

(** Property X3.  Whatever the options, the machine and the bus, returning
    or throwing, [configure] issues nothing but byte writes to CONTROLONE
    (value 0 to 15), ATIME, PERS and ENABLE (value 0 to 127), word writes
    to AILTL and AIHTL with a value from 0 to 0xFFFF, and reads of 0xE7:
    it never reads data, never closes the bus, and never sends a threshold
    that does not fit 16 bits. *)
Theorem configure_issues_only_its_requests
    (t : Transport) (o : Options.t) (m : Machine) :
  Forall configureRequest (issued m (snd (configure t o m))).
Proof. apply quiet_issued. apply configure_requests. Qed.

(** Property X4.  The byte assembled for ENABLE holds each flag in its own
    bit (PON bit 0, AEN bit 1, PEN bit 2, WEN bit 3, AIEN bit 4, PIEN bit 5,
    GEN bit 6) and nothing else, so the flags can be read back from it. *)
Theorem enableByte_bits (e : Enabled.t) :
  Z.testbit (enableByte e) 0 = Enabled.PON e
  /\ Z.testbit (enableByte e) 1 = Enabled.AEN e
  /\ Z.testbit (enableByte e) 2 = Enabled.PEN e
  /\ Z.testbit (enableByte e) 3 = Enabled.WEN e
  /\ Z.testbit (enableByte e) 4 = Enabled.AIEN e
  /\ Z.testbit (enableByte e) 5 = Enabled.PIEN e
  /\ Z.testbit (enableByte e) 6 = Enabled.GEN e
  /\ 0 <= enableByte e < 128.
Proof.
  destruct e as [g pi ai w pe ae po].
  destruct g, pi, ai, w, pe, ae, po; vm_compute; intuition discriminate.
Qed.

Lemma ends_bind (c k : M unit) (P : Machine -> Request -> Prop) :
  respects (quiet (fun _ => True)) c -> ends k P -> ends (c ;; k) P.
Proof.
  intros Hc Hk m H.
  destruct (bind_returned c (fun _ => k) m tt H) as ([] & Ha & E).
  rewrite E in H |- *.
  destruct (Hc m) as (d1 & W1 & _).
  destruct (Hk (snd (c m)) H) as (d2 & r & W2 & HP).
  exists (d1 ++ d2), r. split; [| exact HP].
  rewrite W2, W1, !app_assoc. reflexivity.
Qed.

Ltac extends :=
  walk;
  lazymatch goal with
  | |- quiet _ _ (issue ?r _) => apply (quiet_issue _ r); [exact I | reflexivity]
  | |- quiet _ _ _ => apply quiet_same; reflexivity
  end.

Lemma writeEnable_ends (t : Transport) (o : Options.t) :
  defined (Options.on o) || defined (Options.enableALS o)
  || defined (Options.alsThresholdLow o)
  || defined (Options.alsThresholdHigh o) = true ->
  ends (writeEnable t o)
    (fun m' r =>
       r = WriteUint8 Register.ENABLE
             (enableByte (Configuration.enabled (configuration m')))).
Proof.
  intros G m. unfold writeEnable. rewrite G.
  unfold when, bind, gets, writeUint8, transact.
  destruct (io m); simpl; [| discriminate].
  destruct (acknowledge t _ _); simpl; [| discriminate].
  intros _. exists []. eexists. split; reflexivity.
Qed.

(** Property X5.  A call of [configure] that carries [on], [enableALS] or
    a threshold bound and returns normally ends with one write of ENABLE
    whose value is the byte of the seven flags as the mirror holds them
    after the call: the register always receives the whole current set. *)
Theorem configure_ends_with_enable_snapshot
    (t : Transport) (o : Options.t) (m : Machine) :
  defined (Options.on o) || defined (Options.enableALS o)
  || defined (Options.alsThresholdLow o)
  || defined (Options.alsThresholdHigh o) = true ->
  fst (configure t o m) = Returned tt ->
  let m' := snd (configure t o m) in
  exists d,
    issued m m'
    = d ++ [WriteUint8 Register.ENABLE
              (enableByte (Configuration.enabled (configuration m')))].
Proof.
  intros G H.
  assert (E : ends (configure t o)
                (fun m' r =>
                   r = WriteUint8 Register.ENABLE
                         (enableByte
                            (Configuration.enabled (configuration m'))))).
  { unfold configure.
    apply ends_bind; [unfold storeFlagsAndGains; extends |].
    apply ends_bind; [unfold writeGains; extends |].
    apply ends_bind; [unfold configureIntegration; extends |].
    apply ends_bind; [unfold configureThresholds; extends |].
    apply ends_bind; [unfold configurePersistence; extends |].
    apply ends_bind; [unfold deriveInterruptEnable; extends |].
    apply writeEnable_ends. exact G. }
  destruct (E m H) as (d & r & W & ->).
  exists d. cbv zeta. apply issued_app. exact W.
Qed.

(** Switching ALS off on a constructed driver writes 0b0000001. *)
Lemma configure_ends_with_enable_snapshot_witness :
  let t := steady x01 [] in
  let m := constructed x01 [] in
  let o := {| Options.enableALS := Some false; Options.on := None;
              Options.alsIntegrationCycles := Some 20;
              Options.alsGain := None; Options.proximityGain := None;
              Options.alsThresholdHigh := None;
              Options.alsThresholdLow := None;
              Options.alsThresholdPersistence := None;
              Options.proximityThresholdPersistence := None |} in
  enableByte (Configuration.enabled (configuration (snd (configure t o m))))
  = 1
  /\ exists d,
       issued m (snd (configure t o m))
       = d ++ [WriteUint8 Register.ENABLE
                 (enableByte
                    (Configuration.enabled
                       (configuration (snd (configure t o m)))))].
Proof.
  cbv zeta. split; [reflexivity |].
  apply (configure_ends_with_enable_snapshot (steady x01 []) _
           (constructed x01 []));
    reflexivity.
Defined.

(** * Further properties of the gains *)

(** What lines 128-142 leave behind: they never throw, issue nothing, and
    the mirror then holds each gain given in the call. *)
Lemma storeFlagsAndGains_result (o : Options.t) (m : Machine) :
  exists m1,
    storeFlagsAndGains o m = (Returned tt, m1)
    /\ wire m1 = wire m
    /\ io m1 = io m
    /\ Configuration.alsGain (configuration m1)
       = match Options.alsGain o with
         | Some g => g
         | None => Configuration.alsGain (configuration m)
         end
    /\ Configuration.proximityGain (configuration m1)
       = match Options.proximityGain o with
         | Some g => g
         | None => Configuration.proximityGain (configuration m)
         end.
Proof.
  unfold storeFlagsAndGains, bind, whenDefined, modifyConfiguration, modify,
    ret.
  destruct (Options.enableALS o), (Options.on o), (Options.alsGain o),
    (Options.proximityGain o); simpl; eexists; repeat split.
Qed.

(** Lines 144-185 on a mirror whose two gains are supported. *)
Lemma writeGains_result (t : Transport) (o : Options.t) (m1 : Machine) :
  defined (Options.alsGain o) || defined (Options.proximityGain o) = true ->
  Configuration.alsGain (configuration m1) = 1
  \/ Configuration.alsGain (configuration m1) = 4
  \/ Configuration.alsGain (configuration m1) = 16
  \/ Configuration.alsGain (configuration m1) = 64 ->
  Configuration.proximityGain (configuration m1) = 1
  \/ Configuration.proximityGain (configuration m1) = 2
  \/ Configuration.proximityGain (configuration m1) = 4
  \/ Configuration.proximityGain (configuration m1) = 8 ->
  exists v,
    writeGains t o m1
    = (if io m1
       then (if acknowledge t (wire m1) (WriteUint8 Register.CONTROLONE v)
             then Returned tt else Thrown TransportFault,
             issue (WriteUint8 Register.CONTROLONE v) m1)
       else (Thrown TypeError, m1))
    /\ 4 ^ Z.land v 3 = Configuration.alsGain (configuration m1)
    /\ 2 ^ Z.shiftr v 2 = Configuration.proximityGain (configuration m1).
Proof.
  intros G Ha Hp. unfold writeGains. rewrite G.
  unfold when, bind, gets, alsGainField, proximityGainField, writeUint8,
    transact, ret, throw.
  destruct Ha as [Ea | [Ea | [Ea | Ea]]];
    destruct Hp as [Ep | [Ep | [Ep | Ep]]];
    rewrite Ea, Ep; simpl;
    (eexists; split; [reflexivity | split; reflexivity]).
Qed.

(** What follows the gains in [configure] neither writes CONTROLONE nor
    touches the stored gains. *)
Lemma afterGains_quiet (t : Transport) (o : Options.t) :
  respects (quiet (fun r => writesTo Register.CONTROLONE r = false))
    (configureIntegration t o ;; configureThresholds t o ;;
     configurePersistence t o ;; deriveInterruptEnable t o ;;
     writeEnable t o).
Proof.
  unfold configureIntegration, configureThresholds, configurePersistence,
    deriveInterruptEnable, writeEnable.
  walk;
    lazymatch goal with
    | |- quiet _ _ (issue ?r _) => apply (quiet_issue _ r); reflexivity
    | |- quiet _ _ _ => apply quiet_same; reflexivity
    end.
Qed.

Lemma afterGains_keeps (t : Transport) (o : Options.t) :
  respects
    (keeps (fun m => (Configuration.alsGain (configuration m),
                      Configuration.proximityGain (configuration m))))
    (configureIntegration t o ;; configureThresholds t o ;;
     configurePersistence t o ;; deriveInterruptEnable t o ;;
     writeEnable t o).
Proof.
  unfold configureIntegration, configureThresholds, configurePersistence,
    deriveInterruptEnable, writeEnable.
  walk; reflexivity.
Qed.

(** Property X6.  In any call of [configure] that carries one or both
    gains, whatever else it carries, when the two gains then in the mirror
    (given in the call, or kept from before) are supported: the mirror holds
    these two gains after the call, however the call ends; on a driver that
    holds the bus the call's writes to CONTROLONE are exactly one byte
    write, and on a closed driver it throws a [TypeError] and writes
    nothing; and the gains can be read back from the byte written: the ALS
    gain is 4 to the power of bits 0-1 and the proximity gain is 2 to the
    power of bits 2-3. *)
Theorem configure_gains_decode (t : Transport) (o : Options.t)
    (m : Machine) :
  let a := match Options.alsGain o with
           | Some g => g
           | None => Configuration.alsGain (configuration m)
           end in
  let p := match Options.proximityGain o with
           | Some g => g
           | None => Configuration.proximityGain (configuration m)
           end in
  defined (Options.alsGain o) || defined (Options.proximityGain o) = true ->
  a = 1 \/ a = 4 \/ a = 16 \/ a = 64 ->
  p = 1 \/ p = 2 \/ p = 4 \/ p = 8 ->
  let m' := snd (configure t o m) in
  Configuration.alsGain (configuration m') = a
  /\ Configuration.proximityGain (configuration m') = p
  /\ (io m = false -> fst (configure t o m) = Thrown TypeError)
  /\ exists v,
       4 ^ Z.land v 3 = a
       /\ 2 ^ Z.shiftr v 2 = p
       /\ writes Register.CONTROLONE (issued m m')
          = (if io m then [WriteUint8 Register.CONTROLONE v] else []).
Proof.
  cbv zeta. intros G Ha Hp.
  destruct (storeFlagsAndGains_result o m) as (m1 & S & W1 & I1 & A1 & P1).
  rewrite <- A1 in Ha |- *. rewrite <- P1 in Hp |- *.
  destruct (writeGains_result t o m1 G Ha Hp) as (v & Ev & D1 & D2).
  set (rest := configureIntegration t o ;; configureThresholds t o ;;
               configurePersistence t o ;; deriveInterruptEnable t o ;;
               writeEnable t o).
  assert (E : configure t o m
              = match writeGains t o m1 with
                | (Returned _, m2) => rest m2
                | (Thrown e, m2) => (Thrown e, m2)
                end).
  { unfold configure. unfold bind at 1. rewrite S.
    unfold bind at 1. reflexivity. }
  rewrite E, Ev, I1. clear E Ev.
  destruct (io m) eqn:Hio.
  - destruct (acknowledge t (wire m1) _).
    + pose proof (afterGains_keeps t o
                    (issue (WriteUint8 Register.CONTROLONE v) m1)) as K.
      fold rest in K. unfold keeps in K. simpl in K.
      injection K as K1 K2.
      destruct (afterGains_quiet t o
                  (issue (WriteUint8 Register.CONTROLONE v) m1))
        as (d & Wd & Fd).
      fold rest in Wd.
      split; [exact K1 |]. split; [exact K2 |].
      split; [discriminate |].
      exists v. split; [exact D1 |]. split; [exact D2 |].
      assert (I0 : issued m
                     (snd (rest (issue (WriteUint8 Register.CONTROLONE v)
                                   m1)))
                   = WriteUint8 Register.CONTROLONE v :: d).
      { apply issued_app. rewrite Wd. simpl. rewrite W1, <- app_assoc.
        reflexivity. }
      rewrite I0. unfold writes. simpl.
      rewrite (filter_none _ d Fd). reflexivity.
    + simpl. split; [reflexivity |]. split; [reflexivity |].
      split; [discriminate |].
      exists v. split; [exact D1 |]. split; [exact D2 |].
      rewrite (issued_app m _ [WriteUint8 Register.CONTROLONE v]);
        [reflexivity | simpl; rewrite W1; reflexivity].
  - simpl. split; [reflexivity |]. split; [reflexivity |].
    split; [reflexivity |].
    exists v. split; [exact D1 |]. split; [exact D2 |].
    rewrite (issued_same m m1 W1). reflexivity.
Qed.

(** Raising only the ALS gain to 16, beside a new integration count and
    the power flag, on a constructed driver whose proximity gain is 1: the
    byte written is 0b0010.  And the same call after [close]. *)
Lemma configure_gains_decode_witness :
  let t := steady x01 [] in
  let o := {| Options.enableALS := None; Options.on := Some true;
              Options.alsIntegrationCycles := Some 20;
              Options.alsGain := Some 16; Options.proximityGain := None;
              Options.alsThresholdHigh := None;
              Options.alsThresholdLow := None;
              Options.alsThresholdPersistence := None;
              Options.proximityThresholdPersistence := None |} in
  (let m := constructed x01 [] in
   let m' := snd (configure t o m) in
   Configuration.alsGain (configuration m') = 16
   /\ Configuration.proximityGain (configuration m') = 1
   /\ issued m m'
      = [WriteUint8 Register.CONTROLONE 2; WriteUint8 Register.ATIME 236;
         WriteUint8 Register.ENABLE 3]
   /\ exists v,
        4 ^ Z.land v 3 = 16
        /\ 2 ^ Z.shiftr v 2 = 1
        /\ writes Register.CONTROLONE (issued m m')
           = [WriteUint8 Register.CONTROLONE v])
  /\ (let m := snd (close t (constructed x01 [])) in
      fst (configure t o m) = Thrown TypeError
      /\ issued m (snd (configure t o m)) = []).
Proof.
  cbv zeta. split.
  - destruct (configure_gains_decode (steady x01 [])
                {| Options.enableALS := None; Options.on := Some true;
                   Options.alsIntegrationCycles := Some 20;
                   Options.alsGain := Some 16;
                   Options.proximityGain := None;
                   Options.alsThresholdHigh := None;
                   Options.alsThresholdLow := None;
                   Options.alsThresholdPersistence := None;
                   Options.proximityThresholdPersistence := None |}
                (constructed x01 []))
      as (A & P & _ & V).
    + reflexivity.
    + right. right. left. reflexivity.
    + left. reflexivity.
    + split; [exact A |]. split; [exact P |].
      split; [vm_compute; reflexivity | exact V].
  - destruct (configure_gains_decode (steady x01 [])
                {| Options.enableALS := None; Options.on := Some true;
                   Options.alsIntegrationCycles := Some 20;
                   Options.alsGain := Some 16;
                   Options.proximityGain := None;
                   Options.alsThresholdHigh := None;
                   Options.alsThresholdLow := None;
                   Options.alsThresholdPersistence := None;
                   Options.proximityThresholdPersistence := None |}
                (snd (close (steady x01 []) (constructed x01 []))))
      as (_ & _ & T & _).
    + reflexivity.
    + right. right. left. reflexivity.
    + left. reflexivity.
    + split; [apply T; reflexivity | vm_compute; reflexivity].
Defined.

(** A call with the unsupported ALS gain 3 beside a legal integration
    count: nothing reaches the bus, not even the write of ATIME. *)
Lemma configure_rejects_gain_witness :
  let t := steady x01 [] in
  let m := constructed x01 [] in
  let o := {| Options.enableALS := None; Options.on := None;
              Options.alsIntegrationCycles := Some 20;
              Options.alsGain := Some 3; Options.proximityGain := None;
              Options.alsThresholdHigh := None;
              Options.alsThresholdLow := None;
              Options.alsThresholdPersistence := None;
              Options.proximityThresholdPersistence := None |} in
  (exists message, fst (configure t o m) = Thrown (Error message))
  /\ issued m (snd (configure t o m)) = [].
Proof.
  cbv zeta.
  apply (configure_rejects_gain (steady x01 [])).
  left. exists 3. split; [reflexivity |].
  repeat split; discriminate.
Defined.

(** * Further properties of the integration count *)

(** Property X8.  For every count from 1 to 256 given alone to an open
    driver whose bus acknowledges, [configure] returns normally, writes
    ATIME once with [256 - c], which is a byte, and leaves a positive
    saturation ceiling [1025 * c] that agrees with the stored count. *)
Theorem configure_integration_in_range
    (t : Transport) (m : Machine) (c : Z) :
  1 <= c <= 256 ->
  io m = true ->
  acknowledge t (wire m) (WriteUint8 Register.ATIME (256 - c)) = true ->
  let m' := snd (configure t (justAlsIntegrationCycles c) m) in
  fst (configure t (justAlsIntegrationCycles c) m) = Returned tt
  /\ (exists v, issued m m' = [WriteUint8 Register.ATIME v]
                /\ v = 256 - c /\ 0 <= v <= 255)
  /\ maxCount m' = 1025 * c
  /\ 0 < maxCount m'
  /\ calibrated m'.
Proof.
  intros Hc Hio Hack.
  destruct (configure_alsIntegrationCycles_accepted t m c)
    as (R & W & C & S); [lia | exact Hio | exact Hack |].
  cbv zeta. split; [exact R |]. split.
  - exists (256 - c). split; [exact W |]. split; [reflexivity | lia].
  - split; [exact C |]. split; [lia |].
    unfold calibrated. rewrite C, S. reflexivity.
Qed.

Lemma configure_integration_in_range_witness :
  let t := steady x01 [] in
  let m := constructed x01 [] in
  let m' := snd (configure t (justAlsIntegrationCycles 256) m) in
  fst (configure t (justAlsIntegrationCycles 256) m) = Returned tt
  /\ (exists v, issued m m' = [WriteUint8 Register.ATIME v]
                /\ v = 0 /\ 0 <= v <= 255)
  /\ maxCount m' = 262400
  /\ 0 < maxCount m'
  /\ calibrated m'.
Proof.
  cbv zeta.
  apply (configure_integration_in_range (steady x01 [])
           (constructed x01 []) 256);
    [lia | reflexivity | reflexivity].
Defined.

Lemma configure_alsIntegrationCycles_rejected_witness :
  let t := steady x01 [] in
  let m := constructed x01 [] in
  configure t (justAlsIntegrationCycles 257) m
  = (Thrown (Error "invalid alsIntegrationCycles setting"), m)
  /\ configure t (justAlsIntegrationCycles (-1)) m
     = (Thrown (Error "invalid alsIntegrationCycles setting"), m).
Proof.
  cbv zeta. split.
  - apply (configure_alsIntegrationCycles_rejected (steady x01 [])).
    right. lia.
  - apply (configure_alsIntegrationCycles_rejected (steady x01 [])).
    left. lia.
Defined.

(** * Further properties of the thresholds *)

(** Property X10.  A low bound outside 0..0xFFFF makes
    [configure({alsThresholdLow, alsThresholdHigh})] throw
    [RangeError("invalid alsThresholdLow")] whatever the high bound is, and
    a high bound outside 0..0xFFFF given alone throws
    [RangeError("invalid thresholdHigh")]; in both cases the machine, wire
    included, is left as it was. *)
Theorem configure_threshold_out_of_range
    (t : Transport) (m : Machine) (v : Z) (high : option Z) :
  v < 0 \/ 0xFFFF < v ->
  configure t (justThresholds (Some v) high) m
  = (Thrown (RangeError "invalid alsThresholdLow"), m)
  /\ configure t (justThresholds None (Some v)) m
     = (Thrown (RangeError "invalid thresholdHigh"), m).
Proof.
  intros H.
  assert (E : (v <? 0) || (v >? 0xFFFF) = true).
  { apply orb_true_iff. rewrite Z.gtb_ltb, !Z.ltb_lt. lia. }
  split; run_configure; rewrite E; reflexivity.
Qed.

Lemma configure_threshold_out_of_range_witness :
  let t := steady x01 [] in
  let m := constructed x01 [] in
  configure t (justThresholds (Some 0x10000) (Some 7)) m
  = (Thrown (RangeError "invalid alsThresholdLow"), m)
  /\ configure t (justThresholds None (Some 0x10000)) m
     = (Thrown (RangeError "invalid thresholdHigh"), m).
Proof.
  cbv zeta.
  apply (configure_threshold_out_of_range (steady x01 [])
           (constructed x01 []) 0x10000 (Some 7)).
  right. lia.
Defined.

(** Property X11.  On an open driver whose bus does not fault,
    [configure({alsThresholdLow: l, alsThresholdHigh: h})] with both bounds
    in 0..0xFFFF returns normally after exactly four requests, in this
    order: the word write of [l] to AILTL, the word write of [h] to AIHTL,
    the interrupt-clearing read of 0xE7, and the write of ENABLE with the
    ALS-interrupt bit clear for the pair (0, 0xFFFF) and set for any other
    pair, the other flags being as stored. *)
Theorem configure_thresholds_sequence
    (t : Transport) (m : Machine) (l h : Z) :
  0 <= l <= 0xFFFF -> 0 <= h <= 0xFFFF ->
  io m = true -> acknowledging t ->
  (forall w, answerUint8 t w 0xE7 <> None) ->
  let call := configure t (justThresholds (Some l) (Some h)) m in
  let flags :=
    Enabled.withAIEN (negb ((h =? 0xFFFF) && (l =? 0)))
      (Configuration.enabled (configuration m)) in
  fst call = Returned tt
  /\ issued m (snd call)
     = [WriteUint16 Register.AILTL l; WriteUint16 Register.AIHTL h;
        ReadUint8 0xE7; WriteUint8 Register.ENABLE (enableByte flags)]
  /\ Configuration.enabled (configuration (snd call)) = flags.
Proof.
  intros Hl Hh Hio Hack Hread. cbv zeta. run_configure.
  unfold strictlyEquals.
  replace ((l <? 0) || (l >? 0xFFFF)) with false by
    (symmetry; apply orb_false_iff; rewrite Z.gtb_ltb, !Z.ltb_ge; lia).
  replace ((h <? 0) || (h >? 0xFFFF)) with false by
    (symmetry; apply orb_false_iff; rewrite Z.gtb_ltb, !Z.ltb_ge; lia).
  simpl. rewrite Hio, Hack. simpl. rewrite Hio, Hack. simpl.
  destruct ((h =? 65535) && (l =? 0)); simpl; rewrite Hio; simpl;
    match goal with
    | |- context [answerUint8 t ?w ?r] =>
        destruct (answerUint8 t w r) eqn:E;
          [| exfalso; exact (Hread _ E)]
    end;
    simpl; rewrite Hio, Hack; simpl;
    (split; [reflexivity |]); (split; [| reflexivity]);
    apply issued_app; simpl; rewrite <- !app_assoc; reflexivity.
Qed.

Lemma configure_thresholds_sequence_witness :
  let t := steady x01 [] in
  let m := constructed x01 [] in
  let call := configure t (justThresholds (Some 100) (Some 2000)) m in
  fst call = Returned tt
  /\ issued m (snd call)
     = [WriteUint16 Register.AILTL 100; WriteUint16 Register.AIHTL 2000;
        ReadUint8 0xE7; WriteUint8 Register.ENABLE 19]
  /\ Enabled.AIEN (Configuration.enabled (configuration (snd call))) = true.
Proof.
  cbv zeta.
  destruct (configure_thresholds_sequence (steady x01 [])
              (constructed x01 []) 100 2000) as (R & W & F).
  - lia.
  - lia.
  - reflexivity.
  - intros w r. reflexivity.
  - intros w. discriminate.
  - split; [exact R |]. split; [exact W |]. rewrite F. reflexivity.
Defined.

(** * Further properties of the persistence register *)

Lemma apersFromCycles_inverse (p a : Z) :
  apersFromCycles p = Some a ->
  (0 <= p <= 3 /\ a = p)
  \/ (5 <= p <= 60 /\ p mod 5 = 0 /\ a = p / 5 + 3 /\ p = 5 * (a - 3)).
Proof.
  unfold apersFromCycles. rewrite !Z.gtb_ltb.
  destruct (Z.ltb_spec p 0); simpl; [discriminate |].
  destruct (Z.ltb_spec 60 p); simpl; [discriminate |].
  destruct (Z.ltb_spec 3 p); simpl.
  - rewrite Z.rem_mod_nonneg by lia.
    destruct (Z.eqb_spec (p mod 5) 0); simpl; [| discriminate].
    destruct (Z.leb_spec p 3); [lia |].
    intros E. injection E as <-. right.
    pose proof (Z.div_mod p 5 ltac:(lia)) as D.
    repeat split; lia.
  - destruct (Z.leb_spec p 3); [| lia].
    intros E. injection E as <-. left. lia.
Qed.

Lemma apersFromCycles_code_range (p a : Z) :
  apersFromCycles p = Some a -> 0 <= a <= 15.
Proof.
  intros H. destruct (apersFromCycles_inverse p a H)
    as [[Hp ->] | (Hp & _ & _ & E)]; lia.
Qed.

(** Property X15.  [apersFromCycles] yields a 4-bit code, and no two cycle
    counts share a code: the count can be recovered from the code ([a]
    itself up to 3, [5 * (a - 3)] above). *)
Theorem apersFromCycles_injective (p q a : Z) :
  apersFromCycles p = Some a ->
  apersFromCycles q = Some a ->
  0 <= a <= 15
  /\ p = q
  /\ p = (if a <=? 3 then a else 5 * (a - 3)).
Proof.
  intros Hp Hq.
  destruct (apersFromCycles_inverse p a Hp)
    as [[Rp Ep] | (Rp & Mp & Ap & Ep)];
    destruct (apersFromCycles_inverse q a Hq)
      as [[Rq Eq] | (Rq & Mq & Aq & Eq)];
    destruct (Z.leb_spec a 3); lia.
Qed.

Lemma apersFromCycles_injective_witness :
  0 <= 11 <= 15 /\ 40 = 40 /\ 40 = (if 11 <=? 3 then 11 else 5 * (11 - 3)).
Proof.
  apply (apersFromCycles_injective 40 40 11); reflexivity.
Defined.

Lemma toInt32_small (z : Z) : 0 <= z < 2 ^ 31 -> toInt32 z = z.
Proof.
  intros H. unfold toInt32. cbv zeta.
  rewrite Z.mod_small by lia.
  replace (z <? 2 ^ 31) with true by (symmetry; apply Z.ltb_lt; lia).
  reflexivity.
Qed.

(** Both nibbles of [PPERS | APERS] for a proximity count that fits. *)
Lemma persistence_nibbles (pp : Z) (APERS : option Z) :
  0 <= pp <= 15 ->
  whenStored (fun a => 0 <= a <= 15) APERS ->
  Z.shiftr (bor (shl (Some pp) 4) APERS) 4 = pp
  /\ Z.land (bor (shl (Some pp) 4) APERS) 15
     = match APERS with Some a => a | None => 0 end.
Proof.
  intros Hpp Ha. unfold bor, shl. simpl toInt32'.
  change (Z.land 4 31) with 4.
  rewrite (toInt32_small pp) by lia.
  rewrite Z.shiftl_mul_pow2 by lia. change (2 ^ 4) with 16.
  rewrite !(toInt32_small (pp * 16)) by lia.
  assert (B : 0 <= toInt32' APERS <= 15
              /\ toInt32' APERS = match APERS with
                                  | Some a => a
                                  | None => 0
                                  end).
  { destruct APERS as [a |]; simpl in *; [| lia].
    rewrite toInt32_small by lia. lia. }
  destruct B as [B <-]. set (a := toInt32' APERS) in *.
  split.
  - rewrite Z.shiftr_lor, !Z.shiftr_div_pow2 by lia. change (2 ^ 4) with 16.
    rewrite Z.div_mul by lia. rewrite (Z.div_small a 16) by lia.
    apply Z.lor_0_r.
  - rewrite Z.land_lor_distr_l.
    change 15 with (Z.ones 4). rewrite !Z.land_ones by lia.
    change (2 ^ 4) with 16.
    rewrite Z_mod_mult, Z.mod_small by lia. reflexivity.
Qed.

(** Property X12.  [configure({proximityThresholdPersistence: n})] on an
    open driver: for [n] from 0 to 15 it stores [n] and writes PERS once
    with [n] in the high nibble and, in the low nibble, the code of the
    stored ALS persistence (0 when none is stored); for any other [n] it
    throws a [RangeError] and leaves the machine as it was. *)
Theorem configure_proximityThresholdPersistence
    (t : Transport) (m : Machine) (n : Z) :
  let call := configure t (justProximityThresholdPersistence n) m in
  (0 <= n <= 15 -> io m = true ->
     exists v,
       issued m (snd call) = [WriteUint8 Register.PERS v]
       /\ Z.shiftr v 4 = n
       /\ Z.land v 15
          = match Configuration.alsThresholdPersistence (configuration m)
            with
            | Some cycles =>
                match apersFromCycles cycles with
                | Some a => a
                | None => 0
                end
            | None => 0
            end
       /\ Configuration.proximityThresholdPersistence
            (configuration (snd call)) = Some n)
  /\ (n < 0 \/ 15 < n ->
        call
        = (Thrown (RangeError "invalid proximityThresholdPersistence"), m)).
Proof.
  cbv zeta. split.
  - intros Hn Hio. run_configure.
    replace ((n <? 0) || (n >? 15)) with false by
      (symmetry; apply orb_false_iff; rewrite Z.gtb_ltb, !Z.ltb_ge; lia).
    simpl. rewrite Hio. simpl.
    set (APERS := match Configuration.alsThresholdPersistence
                          (configuration m) with
                  | Some cycles => apersFromCycles cycles
                  | None => None
                  end).
    assert (HA : whenStored (fun a => 0 <= a <= 15) APERS).
    { unfold APERS.
      destruct (Configuration.alsThresholdPersistence (configuration m))
        as [c |]; [| exact I].
      destruct (apersFromCycles c) as [a |] eqn:E; [| exact I].
      exact (apersFromCycles_code_range c a E). }
    destruct (persistence_nibbles n APERS Hn HA) as [N1 N2].
    destruct (acknowledge t _ _); simpl;
      (eexists; split; [apply issued_app; reflexivity |]);
      (split; [exact N1 |]); (split; [| reflexivity]);
      rewrite N2; unfold APERS;
      destruct (Configuration.alsThresholdPersistence (configuration m));
      reflexivity.
  - intros Hn. run_configure.
    replace ((n <? 0) || (n >? 15)) with true by
      (symmetry; apply orb_true_iff; rewrite Z.gtb_ltb, !Z.ltb_lt; lia).
    reflexivity.
Qed.

(** A constructed driver stores ALS persistence 1. *)
Lemma configure_proximityThresholdPersistence_witness :
  let t := steady x01 [] in
  let m := constructed x01 [] in
  (exists v,
      issued m (snd (configure t (justProximityThresholdPersistence 9) m))
      = [WriteUint8 Register.PERS v]
      /\ Z.shiftr v 4 = 9
      /\ Z.land v 15 = 1
      /\ Configuration.proximityThresholdPersistence
           (configuration
              (snd (configure t (justProximityThresholdPersistence 9) m)))
         = Some 9)
  /\ configure t (justProximityThresholdPersistence 16) m
     = (Thrown (RangeError "invalid proximityThresholdPersistence"), m).
Proof.
  cbv zeta. split.
  - apply (proj1 (configure_proximityThresholdPersistence (steady x01 [])
                    (constructed x01 []) 9)); [lia | reflexivity].
  - apply (proj2 (configure_proximityThresholdPersistence (steady x01 [])
                    (constructed x01 []) 16)). right. lia.
Defined.

(** Property X13.  In any call of [configure] that carries a legal
    [alsThresholdPersistence], whatever else it carries and however it
    ends, every write of PERS it issues has the code of that count in its
    low nibble. *)
Theorem configure_persistence_code_in_any_call
    (t : Transport) (o : Options.t) (m : Machine) (p a : Z) :
  Options.alsThresholdPersistence o = Some p ->
  apersFromCycles p = Some a ->
  forall r, In r (writes Register.PERS (issued m (snd (configure t o m)))) ->
            exists v, r = WriteUint8 Register.PERS v /\ Z.land v 15 = a.
Proof.
  intros Ho Hp r Hr. unfold writes in Hr.
  apply filter_In in Hr. destruct Hr as [Hin Hw].
  pose proof (quiet_issued _ _ _
                (configure_persistence_nibble_any_call t o p a Ho Hp
                   (apersFromCycles_code_range p a Hp) m)) as F.
  rewrite Forall_forall in F. exact (F r Hin Hw).
Qed.

Lemma configure_persistence_code_in_any_call_witness :
  let t := steady x01 [] in
  let m := constructed x01 [] in
  let o := {| Options.enableALS := Some true; Options.on := None;
              Options.alsIntegrationCycles := Some 20;
              Options.alsGain := None; Options.proximityGain := None;
              Options.alsThresholdHigh := Some 500;
              Options.alsThresholdLow := None;
              Options.alsThresholdPersistence := Some 35;
              Options.proximityThresholdPersistence := Some 3 |} in
  writes Register.PERS (issued m (snd (configure t o m)))
  = [WriteUint8 Register.PERS 58]
  /\ exists v, WriteUint8 Register.PERS 58 = WriteUint8 Register.PERS v
               /\ Z.land v 15 = 10.
Proof.
  cbv zeta. split; [reflexivity |].
  apply (configure_persistence_code_in_any_call (steady x01 [])
           {| Options.enableALS := Some true; Options.on := None;
              Options.alsIntegrationCycles := Some 20;
              Options.alsGain := None; Options.proximityGain := None;
              Options.alsThresholdHigh := Some 500;
              Options.alsThresholdLow := None;
              Options.alsThresholdPersistence := Some 35;
              Options.proximityThresholdPersistence := Some 3 |}
           (constructed x01 []) 35 10).
  - reflexivity.
  - reflexivity.
  - vm_compute. left. reflexivity.
Defined.

Lemma configure_persistence_rejected_any_call_witness :
  let t := steady x01 [] in
  let m := constructed x01 [] in
  let o := {| Options.enableALS := None; Options.on := None;
              Options.alsIntegrationCycles := Some 20;
              Options.alsGain := None; Options.proximityGain := None;
              Options.alsThresholdHigh := None;
              Options.alsThresholdLow := None;
              Options.alsThresholdPersistence := Some 7;
              Options.proximityThresholdPersistence := Some 3 |} in
  (exists e, fst (configure t o m) = Thrown e)
  /\ writes Register.PERS (issued m (snd (configure t o m))) = []
  /\ issued m (snd (configure t o m)) = [WriteUint8 Register.ATIME 236].
Proof.
  cbv zeta.
  destruct (configure_persistence_rejected_any_call (steady x01 [])
              {| Options.enableALS := None; Options.on := None;
                 Options.alsIntegrationCycles := Some 20;
                 Options.alsGain := None; Options.proximityGain := None;
                 Options.alsThresholdHigh := None;
                 Options.alsThresholdLow := None;
                 Options.alsThresholdPersistence := Some 7;
                 Options.proximityThresholdPersistence := Some 3 |}
              (constructed x01 []) 7 eq_refl eq_refl) as [T W].
  split; [exact T |]. split; [exact W | reflexivity].
Defined.

(** * Invariants of the mirror *)

#[export] Instance preserves_PreOrder (P : Machine -> Prop) :
  PreOrder (preserves P).
Proof.
  split.
  - intros m H. exact H.
  - intros a b c H1 H2 H. exact (H2 (H1 H)).
Qed.

(** Every step that touches neither the stored count nor the ceiling. *)
Ltac still_calibrated :=
  walk; unfold preserves, calibrated; simpl; intros; assumption.

Lemma configure_calibrated (t : Transport) (o : Options.t) :
  respects (preserves calibrated) (configure t o).
Proof.
  apply (@configure_phases _ (preserves_PreOrder _) t o).
  3: {
    intros m. unfold configureIntegration, whenDefined, bind,
      modifyConfiguration, modify, writeUint8, transact, throw, ret.
    destruct (Options.alsIntegrationCycles o) as [c |]; simpl;
      [| intros H; exact H].
    destruct ((c >? 256) || (c <? 0)); simpl; [intros H; exact H |].
    destruct (io m); simpl; intros _; reflexivity. }
  all: unfold storeFlagsAndGains, writeGains, configureThresholds,
         configurePersistence, deriveInterruptEnable, writeEnable;
       still_calibrated.
Qed.

Lemma sample_calibrated (t : Transport) :
  respects (preserves calibrated) (sample t).
Proof. unfold sample. still_calibrated. Qed.

Lemma close_calibrated (t : Transport) :
  respects (preserves calibrated) (close t).
Proof. unfold close. still_calibrated. Qed.

Lemma constructor_calibrated (t : Transport) (alert onAlert : bool) :
  respects (preserves calibrated) (constructor t alert onAlert).
Proof.
  unfold constructor. walk;
    try apply close_calibrated; try apply configure_calibrated;
    unfold preserves, calibrated; simpl; intros; assumption.
Qed.

(** Property X16.  The saturation ceiling always agrees with the stored
    integration count: [#maxCount = 1025 * alsIntegrationCycles] holds for
    the field initialisers and is kept by the constructor, [configure],
    [sample] and [close], whether they return or throw. *)
Theorem ceiling_follows_integration_cycles (t : Transport) :
  calibrated initial
  /\ forall m,
       calibrated m ->
       (forall alert onAlert,
           calibrated (snd (constructor t alert onAlert m)))
       /\ (forall o, calibrated (snd (configure t o m)))
       /\ calibrated (snd (sample t m))
       /\ calibrated (snd (close t m)).
Proof.
  split; [reflexivity |].
  intros m H. split; [| split; [| split]].
  - intros alert onAlert. exact (constructor_calibrated t alert onAlert m H).
  - intros o. exact (configure_calibrated t o m H).
  - exact (sample_calibrated t m H).
  - exact (close_calibrated t m H).
Qed.

(** On a bus that faults on the write of ATIME the new count and the new
    ceiling are both in place when the fault is thrown. *)
Lemma ceiling_follows_integration_cycles_witness :
  let t := brokenAt Register.ATIME in
  let m := constructed x01 [] in
  let m' := snd (configure t (justAlsIntegrationCycles 50) m) in
  fst (configure t (justAlsIntegrationCycles 50) m) = Thrown TransportFault
  /\ maxCount m' = 51250
  /\ calibrated m'
  /\ calibrated (snd (sample t m'))
  /\ calibrated (snd (close t m')).
Proof.
  cbv zeta.
  destruct (ceiling_follows_integration_cycles (brokenAt Register.ATIME))
    as [_ K].
  assert (C0 : calibrated (constructed x01 []))
    by (vm_compute; reflexivity).
  destruct (K (constructed x01 []) C0) as (_ & C & _).
  specialize (C (justAlsIntegrationCycles 50)).
  destruct (K _ C) as (_ & _ & S & L).
  split; [vm_compute; reflexivity |]. split; [vm_compute; reflexivity |].
  split; [exact C |]. split; [exact S | exact L].
Defined.

Lemma range_256 (v : Z) : (v >? 256) || (v <? 0) = false -> 0 <= v <= 256.
Proof.
  intros H. apply orb_false_iff in H. destruct H as [H1 H2].
  rewrite Z.gtb_ltb in H1. apply Z.ltb_ge in H1. apply Z.ltb_ge in H2. lia.
Qed.

Lemma configure_wellStored (t : Transport) (o : Options.t) :
  respects (preserves (fun m => wellStored (configuration m)))
    (configure t o).
Proof.
  unfold_configure. walk; unfold preserves, wellStored; simpl;
    intros (H1 & H2 & H3 & H4 & H5);
    (split; [| split; [| split; [| split]]]);
    try assumption;
    try (apply range_256; assumption);
    try (apply leb_range; assumption);
    congruence.
Qed.

(** Property X17.  [configure] never lets an illegal value into the
    mirror's integration count, thresholds or persistence counts: if the
    stored count is in 0..256, the stored bounds in 0..0xFFFF, the stored
    ALS persistence one that [apersFromCycles] encodes and the stored
    proximity persistence in 0..15 before a call, they are so after it,
    whatever the options and however the call ends.  The field initialisers
    satisfy this. *)
Theorem configure_keeps_mirror_legal
    (t : Transport) (o : Options.t) (m : Machine) :
  wellStored (configuration initial)
  /\ (wellStored (configuration m) ->
      wellStored (configuration (snd (configure t o m)))).
Proof.
  split.
  - unfold wellStored. simpl. repeat split; lia || exact I.
  - exact (configure_wellStored t o m).
Qed.

(** A call whose high bound is refused after its low bound was stored. *)
Lemma configure_keeps_mirror_legal_witness :
  let t := steady x01 [] in
  let m := constructed x01 [] in
  let o := justThresholds (Some 12) (Some (-1)) in
  fst (configure t o m) = Thrown (RangeError "invalid thresholdHigh")
  /\ Configuration.alsThresholdLow (configuration (snd (configure t o m)))
     = Some 12
  /\ wellStored (configuration (snd (configure t o m))).
Proof.
  cbv zeta. split; [reflexivity |]. split; [reflexivity |].
  apply (proj2 (configure_keeps_mirror_legal (steady x01 [])
                  (justThresholds (Some 12) (Some (-1)))
                  (constructed x01 []))).
  unfold wellStored. simpl. repeat split; try lia; discriminate.
Defined.

(** * Further properties of [sample] *)

Lemma bit0_clear (z : Z) :
  Z.testbit z 0 = false -> (Z.land z 1 =? 0) = true.
Proof.
  intros H. apply Z.eqb_eq.
  change 1 with (Z.ones 1). rewrite Z.land_ones by lia.
  change (2 ^ 1) with 2. rewrite <- Z.bit0_mod, H. reflexivity.
Qed.

(** Property X18.  On an open, powered driver whose status read answers,
    [sample] returns an object without a [lightmeter] property when ALS is
    disabled or bit 0 of the status is clear; it has then issued the status
    read and nothing else, and changed nothing in the driver. *)
Theorem sample_without_reading (t : Transport) (m : Machine)
    (status : byte) :
  io m = true ->
  Enabled.PON (Configuration.enabled (configuration m)) = true ->
  answerUint8 t (wire m) Register.STATUS = Some status ->
  Enabled.AEN (Configuration.enabled (configuration m)) = false
  \/ Z.testbit (byteZ status) 0 = false ->
  sample t m
  = (Returned (Some {| lightmeter := None |}),
     issue (ReadUint8 Register.STATUS) m).
Proof.
  intros Hio Hpon Hst H.
  unfold sample, bind, gets, readUint8, ret.
  rewrite Hpon. simpl. rewrite Hio, Hst. simpl.
  destruct H as [H | H].
  - rewrite H. reflexivity.
  - rewrite (bit0_clear _ H), andb_false_r. reflexivity.
Qed.

(** Status 0xFE with ALS enabled, and status 0xFF with ALS disabled. *)
Lemma sample_without_reading_witness :
  sample (steady xfe []) (constructed xfe [])
  = (Returned (Some {| lightmeter := None |}),
     issue (ReadUint8 Register.STATUS) (constructed xfe []))
  /\ sample (steady xff []) (alsOff xff [])
     = (Returned (Some {| lightmeter := None |}),
        issue (ReadUint8 Register.STATUS) (alsOff xff [])).
Proof.
  split.
  - apply (sample_without_reading (steady xfe []) (constructed xfe []) xfe);
      try reflexivity.
    right. reflexivity.
  - apply (sample_without_reading (steady xff []) (alsOff xff []) xff);
      try reflexivity.
    left. reflexivity.
Defined.

(** Property X19.  Whatever the machine and the bus, [sample] issues at most
    the status read followed by the burst read of the eight data bytes, in
    that order, and never a write or a close; and it leaves the mirror, the
    saturation ceiling and the two handles as they were. *)
Theorem sample_only_reads (t : Transport) (m : Machine) :
  let m' := snd (sample t m) in
  (issued m m' = []
   \/ issued m m' = [ReadUint8 Register.STATUS]
   \/ issued m m' = [ReadUint8 Register.STATUS;
                     ReadBuffer Register.CDATAL 8])
  /\ configuration m' = configuration m
  /\ maxCount m' = maxCount m
  /\ io m' = io m
  /\ monitor m' = monitor m.
Proof.
  cbv zeta. split.
  - unfold sample, bind, gets, readUint8, readBuffer, getUint16, modify, ret.
    destruct (Enabled.PON _); simpl;
      [| left; apply issued_same; reflexivity].
    destruct (io m) eqn:Hio; simpl;
      [| left; apply issued_same; reflexivity].
    destruct (answerUint8 t (wire m) Register.STATUS) as [status |]; simpl;
      [| right; left; apply issued_app; reflexivity].
    destruct (Enabled.AEN _ && _); simpl;
      [| right; left; apply issued_app; reflexivity].
    rewrite Hio.
    destruct (answerBuffer t _ _ _); simpl;
      right; right; apply issued_app; simpl; rewrite <- app_assoc;
      reflexivity.
  - assert (K : respects
                  (keeps (fun m => (configuration m, maxCount m, io m,
                                    monitor m)))
                  (sample t))
      by (unfold sample; walk; reflexivity).
    specialize (K m). unfold keeps in K. injection K as K1 K2 K3 K4.
    repeat split; assumption.
Qed.

(** Property X20.  [close] does not clear the stored power-on flag, so on a
    driver that was powered when it was closed, [sample] throws a
    [TypeError] (a method call on the released bus) instead of returning
    [undefined]. *)
Theorem sample_after_close_throws (t : Transport) (m : Machine) :
  Enabled.PON (Configuration.enabled (configuration m)) = true ->
  fst (close t m) = Returned tt ->
  sample t (snd (close t m)) = (Thrown TypeError, snd (close t m)).
Proof.
  intros Hpon H.
  destruct (close_releases t m H) as [Hio _].
  assert (K : respects (keeps configuration) (close t))
    by (unfold close; walk; reflexivity).
  specialize (K m). unfold keeps in K.
  unfold sample, bind, gets, readUint8. rewrite K, Hpon. simpl.
  rewrite Hio. reflexivity.
Qed.

Lemma sample_after_close_throws_witness :
  let t := steady x01 [] in
  let m := constructed x01 [] in
  sample t (snd (close t m)) = (Thrown TypeError, snd (close t m)).
Proof.
  cbv zeta.
  apply (sample_after_close_throws (steady x01 []) (constructed x01 []));
    reflexivity.
Defined.

(** * Further properties of [close] *)

(** Property X21.  On a driver that holds the bus, with a bus that
    acknowledges, [close] returns normally after writing 0 to ENABLE,
    closing the bus and, if there is one, closing the alert monitor, in
    that order; both handles are then released and the mirror is as it
    was. *)
Theorem close_disables_and_releases (t : Transport) (m : Machine) :
  io m = true -> acknowledging t ->
  let m' := snd (close t m) in
  fst (close t m) = Returned tt
  /\ issued m m'
     = [WriteUint8 Register.ENABLE 0; CloseIO]
       ++ (if monitor m then [CloseMonitor] else [])
  /\ io m' = false /\ monitor m' = false
  /\ configuration m' = configuration m.
Proof.
  intros Hio Hack. cbv zeta.
  unfold close, bind, gets, when, writeUint8, transact, closeMonitor,
    modify, ret.
  destruct (monitor m) eqn:Hm;
    repeat (rewrite ?Hio, ?Hack, ?Hm; simpl);
    (split; [reflexivity |]); (split; [| repeat split]);
    apply issued_app; simpl; rewrite <- !app_assoc; reflexivity.
Qed.

Lemma close_disables_and_releases_witness :
  let t := steady x01 [] in
  let m' := snd (close t monitored) in
  monitor monitored = true
  /\ fst (close t monitored) = Returned tt
  /\ issued monitored m'
     = [WriteUint8 Register.ENABLE 0; CloseIO; CloseMonitor]
  /\ io m' = false /\ monitor m' = false
  /\ configuration m' = configuration monitored.
Proof.
  cbv zeta. split; [reflexivity |].
  apply (close_disables_and_releases (steady x01 []) monitored).
  - reflexivity.
  - intros w r. reflexivity.
Defined.

(** Property X22.  When the write of 0 to ENABLE faults, [close] throws that
    fault at once: the bus is not closed, the alert monitor is not closed,
    and both handles stay held, so a later [close] tries again. *)
Theorem close_fault_keeps_handles (t : Transport) (m : Machine) :
  io m = true ->
  acknowledge t (wire m) (WriteUint8 Register.ENABLE 0) = false ->
  close t m
  = (Thrown TransportFault, issue (WriteUint8 Register.ENABLE 0) m)
  /\ io (snd (close t m)) = true
  /\ monitor (snd (close t m)) = monitor m.
Proof.
  intros Hio Hack.
  assert (E : close t m
              = (Thrown TransportFault,
                 issue (WriteUint8 Register.ENABLE 0) m)).
  { unfold close, bind, gets, when, writeUint8, transact.
    rewrite Hio. simpl. rewrite Hack. simpl. rewrite Hio. reflexivity. }
  rewrite E. simpl. repeat split. exact Hio.
Qed.

Lemma close_fault_keeps_handles_witness :
  close deaf monitored
  = (Thrown TransportFault, issue (WriteUint8 Register.ENABLE 0) monitored)
  /\ io (snd (close deaf monitored)) = true
  /\ monitor (snd (close deaf monitored)) = monitor monitored.
Proof.
  apply (close_fault_keeps_handles deaf monitored); reflexivity.
Defined.

(** * Properties of the constructor *)

Ltac run_constructor :=
  unfold constructor, close, catch;
  unfold_configure;
  unfold bind, when, whenDefined, modifyConfiguration, modify, gets, ret,
    throw, writeUint8, writeUint16, transact, readUint8, closeMonitor,
    alsGainField, proximityGainField, strictlyEquals.

(** Evaluates by value, so that a machine is built once before its fields
    are read. *)
Ltac evaluate := cbv -[acknowledge answerUint8 answerBuffer].

Lemma byteZ_identity (b : byte) : (0xAB =? byteZ b) = true -> b = xab.
Proof. destruct b; intros H; try reflexivity; discriminate H. Qed.

(** Property X23.  On a bus that acknowledges every write, reads 0xAB from
    the identity register and answers the interrupt-clearing read, the
    constructor returns normally after exactly these ten requests: the
    reset (ENABLE 0, then 1), the identity read, then the default
    configuration: CONTROLONE 0, ATIME 246, AILTL 0, AIHTL 0xFFFF,
    PERS 0x11, the read of 0xE7, ENABLE 0b011.  It leaves the bus held, a
    monitor exactly when both [alert] and [onAlert] were given, power and
    ALS on, the ALS interrupt off, 10 integration cycles and the ceiling
    10250. *)
Theorem constructor_initializes (t : Transport) (alert onAlert : bool) :
  acknowledging t ->
  (forall w, answerUint8 t w Register.ID = Some xab) ->
  (forall w, answerUint8 t w 0xE7 <> None) ->
  let call := constructor t alert onAlert initial in
  fst call = Returned tt
  /\ wire (snd call)
     = [WriteUint8 Register.ENABLE 0; WriteUint8 Register.ENABLE 1;
        ReadUint8 Register.ID;
        WriteUint8 Register.CONTROLONE 0; WriteUint8 Register.ATIME 246;
        WriteUint16 Register.AILTL 0; WriteUint16 Register.AIHTL 0xFFFF;
        WriteUint8 Register.PERS 17; ReadUint8 0xE7;
        WriteUint8 Register.ENABLE 3]
  /\ io (snd call) = true
  /\ monitor (snd call) = alert && onAlert
  /\ alsBlock (snd call) = repeat x00 8
  /\ maxCount (snd call) = 10250
  /\ configuration (snd call)
     = {| Configuration.enabled :=
            {| Enabled.GEN := false; Enabled.PIEN := false;
               Enabled.AIEN := false; Enabled.WEN := false;
               Enabled.PEN := false; Enabled.AEN := true;
               Enabled.PON := true |};
          Configuration.alsIntegrationCycles := 10;
          Configuration.alsGain := 1;
          Configuration.proximityGain := 1;
          Configuration.alsThresholdLow := Some 0;
          Configuration.alsThresholdHigh := Some 0xFFFF;
          Configuration.alsThresholdPersistence := Some 1;
          Configuration.proximityThresholdPersistence := Some 1 |}.
Proof.
  intros Hack Hid Hclear. cbv zeta. run_constructor.
  destruct (alert && onAlert); evaluate;
    repeat (rewrite ?Hack, ?Hid; evaluate);
    match goal with
    | |- context [answerUint8 t ?w 231] =>
        destruct (answerUint8 t w 231) eqn:E;
          [| exfalso; exact (Hclear _ E)]
    end;
    evaluate; rewrite ?Hack; evaluate; repeat split.
Qed.

Lemma constructor_initializes_witness :
  let call := constructor (steady x01 []) true false initial in
  fst call = Returned tt
  /\ List.length (wire (snd call)) = 10%nat
  /\ io (snd call) = true
  /\ monitor (snd call) = false
  /\ maxCount (snd call) = 10250.
Proof.
  cbv zeta.
  destruct (constructor_initializes (steady x01 []) true false)
    as (R & W & I0 & M0 & _ & C & _).
  - intros w r. reflexivity.
  - intros w. reflexivity.
  - intros w. discriminate.
  - split; [exact R |]. split; [rewrite W; reflexivity |].
    split; [exact I0 |]. split; [exact M0 | exact C].
Defined.

(** Property X24.  On a bus that acknowledges every write, when the
    identity read faults or answers anything but 0xAB, the constructor
    writes 0 to ENABLE, closes the bus and throws
    [Error("i2c error during id check")] for a fault and
    [Error("unexpected sensor ID")] for a wrong identity; it has then
    issued nothing else, holds neither handle, and has not touched the
    mirror. *)
Theorem constructor_rejects_identity
    (t : Transport) (alert onAlert : bool) :
  acknowledging t ->
  answerUint8 t [WriteUint8 Register.ENABLE 0; WriteUint8 Register.ENABLE 1]
    Register.ID <> Some xab ->
  let call := constructor t alert onAlert initial in
  fst call
  = Thrown (Error
      match answerUint8 t
              [WriteUint8 Register.ENABLE 0; WriteUint8 Register.ENABLE 1]
              Register.ID with
      | Some _ => "unexpected sensor ID"
      | None => "i2c error during id check"
      end)
  /\ wire (snd call)
     = [WriteUint8 Register.ENABLE 0; WriteUint8 Register.ENABLE 1;
        ReadUint8 Register.ID; WriteUint8 Register.ENABLE 0; CloseIO]
  /\ io (snd call) = false
  /\ monitor (snd call) = false
  /\ configuration (snd call) = configuration initial.
Proof.
  intros Hack Hid. cbv zeta. run_constructor.
  cbv -[acknowledge answerUint8 answerBuffer byteZ Z.eqb].
  repeat (rewrite ?Hack;
          cbv -[acknowledge answerUint8 answerBuffer byteZ Z.eqb]).
  cbv -[acknowledge answerUint8 answerBuffer byteZ Z.eqb] in Hid.
  destruct (answerUint8 t _ _) as [b |] eqn:E.
  - destruct (171 =? byteZ b) eqn:B.
    + exfalso. apply Hid. rewrite (byteZ_identity b B). reflexivity.
    + repeat (rewrite ?Hack;
              cbv -[acknowledge answerUint8 answerBuffer byteZ Z.eqb]).
      repeat split.
  - repeat (rewrite ?Hack;
            cbv -[acknowledge answerUint8 answerBuffer byteZ Z.eqb]).
    repeat split.
Qed.

Lemma constructor_rejects_identity_witness :
  let call := constructor (impostor x00) true true initial in
  fst call = Thrown (Error "unexpected sensor ID")
  /\ wire (snd call)
     = [WriteUint8 Register.ENABLE 0; WriteUint8 Register.ENABLE 1;
        ReadUint8 Register.ID; WriteUint8 Register.ENABLE 0; CloseIO]
  /\ io (snd call) = false
  /\ monitor (snd call) = false
  /\ configuration (snd call) = configuration initial.
Proof.
  cbv zeta.
  apply (constructor_rejects_identity (impostor x00) true true).
  - intros w r. reflexivity.
  - discriminate.
Defined.

(** The term on whose value the evaluation of [e] waits. *)
Ltac head_stuck e :=
  lazymatch e with
  | acknowledge _ _ _ => e
  | answerUint8 _ _ _ => e
  | Z.eqb _ _ => e
  | andb _ _ => e
  | match ?x with _ => _ end => head_stuck x
  | ?f _ => head_stuck f
  | _ => e
  end.

(** Follows a computation through every answer the bus can give, asking
    for one answer at a time, in the order the code asks. *)
Ltac every_answer :=
  repeat (cbv -[acknowledge answerUint8 answerBuffer byteZ Z.eqb andb
                configure defaults];
          lazymatch goal with
          | |- ?G =>
              let x := head_stuck G in
              lazymatch x with
              | acknowledge _ _ _ => destruct x
              | answerUint8 _ _ _ => destruct x
              | Z.eqb _ (byteZ _) => destruct x
              | andb _ _ => destruct x
              end
          end).

(** The constructor's own call of [configure] can only fail by a fault of
    the bus. *)
Lemma configure_defaults_outcomes (t : Transport) (m : Machine) :
  io m = true ->
  Configuration.proximityGain (configuration m) = 1 ->
  match fst (configure t defaults m) with
  | Returned _ | Thrown TransportFault => True
  | Thrown _ => False
  end.
Proof.
  destruct m as [io0 mon blk mx [en cy ag pg lo hi ap pp] w tr].
  simpl. intros -> ->.
  unfold_configure;
  unfold bind, when, whenDefined, modifyConfiguration, modify, gets, ret,
    throw, writeUint8, writeUint16, transact, readUint8,
    alsGainField, proximityGainField, strictlyEquals.
  repeat (cbv -[acknowledge answerUint8 answerBuffer];
          lazymatch goal with
          | |- context [acknowledge t ?w ?r] =>
              destruct (acknowledge t w r)
          | |- context [answerUint8 t ?w ?r] =>
              destruct (answerUint8 t w r)
          end).
  all: exact I.
Qed.

(** Property X25.  However the bus behaves, the constructor ends in one of
    three ways.  It returns, holding the bus.  Or it throws one of its own
    three errors ("reset failed", "i2c error during id check", "unexpected
    sensor ID"), and then it holds neither the bus nor a monitor.  Or it
    throws a fault of the bus, raised by the write or the close inside
    [close] or by the initial [configure], and then the bus is still
    held: these paths do not release it. *)
Theorem constructor_outcomes (t : Transport) (alert onAlert : bool) :
  let call := constructor t alert onAlert initial in
  match fst call with
  | Returned _ => io (snd call) = true
  | Thrown (Error message) =>
      io (snd call) = false /\ monitor (snd call) = false
      /\ (message = "reset failed"%string
          \/ message = "i2c error during id check"%string
          \/ message = "unexpected sensor ID"%string)
  | Thrown TransportFault => io (snd call) = true
  | Thrown (RangeError _) | Thrown TypeError => False
  end.
Proof.
  cbv zeta.
  unfold constructor, close, catch, bind, when, modify, gets, ret, throw,
    writeUint8, transact, readUint8, closeMonitor.
  every_answer.
  all: lazymatch goal with
       | |- context [configure ?b defaults ?M] =>
           pose proof (configure_defaults_outcomes b M eq_refl eq_refl) as L;
           pose proof (configure_keeps_handles b defaults M) as K;
           unfold keeps in K;
           destruct (configure b defaults M) as [[[] | e] M'];
           simpl in L, K |- *;
           injection K as K _ _ _;
           [exact K | destruct e; try contradiction; exact K]
       | |- _ => cbv; auto
       end.
Qed.

(** * [configure] followed by [sample] *)

(** Property X26.  After [configure({alsIntegrationCycles: c})] with [c]
    from 1 to 256 on an open, powered driver with ALS enabled, a [sample]
    that finds fresh data divides the four counts by [1025 * c].  A value
    is in [0, 1] whenever its count is at most [1025 * c]; from 64 cycles
    on the ceiling exceeds every 16-bit count, so all four values are in
    [0, 1] whatever the bus delivers. *)
Theorem sample_after_configure_cycles (t : Transport) (m : Machine)
    (c : Z) (status : byte) (f : nat -> byte) :
  1 <= c <= 256 ->
  io m = true ->
  Enabled.PON (Configuration.enabled (configuration m)) = true ->
  Enabled.AEN (Configuration.enabled (configuration m)) = true ->
  acknowledge t (wire m) (WriteUint8 Register.ATIME (256 - c)) = true ->
  let m1 := snd (configure t (justAlsIntegrationCycles c) m) in
  answerUint8 t (wire m1) Register.STATUS = Some status ->
  Z.testbit (byteZ status) 0 = true ->
  answerBuffer t (wire m1 ++ [ReadUint8 Register.STATUS]) Register.CDATAL 8
  = Some f ->
  let raw := fun i => littleEndian16 (f i) (f (S i)) in
  fst (sample t m1)
  = Returned (Some {| lightmeter := Some
      {| clear := divide (raw 0%nat) (1025 * c);
         red := divide (raw 2%nat) (1025 * c);
         green := divide (raw 4%nat) (1025 * c);
         blue := divide (raw 6%nat) (1025 * c) |} |})
  /\ (forall i, raw i <= 1025 * c ->
                inUnitInterval (divide (raw i) (1025 * c)))
  /\ (64 <= c -> forall i, inUnitInterval (divide (raw i) (1025 * c))).
Proof.
  intros Hc Hio Hpon Haen Hack m1 Hst Hbit Hbuf raw.
  destruct (configure_alsIntegrationCycles_accepted t m c)
    as (_ & _ & C & _); [lia | exact Hio | exact Hack |].
  fold m1 in C.
  assert (Hio1 : io m1 = true).
  { pose proof (configure_keeps_handles t (justAlsIntegrationCycles c) m)
      as K.
    unfold keeps in K. fold m1 in K. injection K as K _ _ _.
    rewrite K. exact Hio. }
  assert (Hpon1 : Enabled.PON (Configuration.enabled (configuration m1))
                  = true).
  { pose proof (configure_keeps_PON t (justAlsIntegrationCycles c)
                  eq_refl m) as K.
    unfold keeps in K. fold m1 in K. rewrite K. exact Hpon. }
  assert (Haen1 : Enabled.AEN (Configuration.enabled (configuration m1))
                  = true).
  { pose proof (configure_keeps_AEN t (justAlsIntegrationCycles c)
                  eq_refl m) as K.
    unfold keeps in K. fold m1 in K. rewrite K. exact Haen. }
  destruct (sample_reads_channels t m1 status f
              Hio1 Hpon1 Haen1 Hst Hbit Hbuf) as [E _].
  rewrite C in E. split; [exact E |]. split.
  - intros i Hr. apply divide_inUnitInterval; [lia |].
    split; [apply littleEndian16_range | exact Hr].
  - intros H64 i. apply divide_inUnitInterval; [lia |].
    pose proof (littleEndian16_range (f i) (f (S i))) as R.
    fold (raw i) in R. lia.
Qed.

(** 100 cycles on a constructed driver, then the counts 0xFFFF, 0, 1 and
    0x8000. *)
Lemma sample_after_configure_cycles_witness :
  let block := [xff; xff; x00; x00; x01; x00; x00; x80] in
  let t := steady x01 block in
  let m1 := snd (configure t (justAlsIntegrationCycles 100)
                   (constructed x01 block)) in
  fst (sample t m1)
  = Returned (Some {| lightmeter := Some
      {| clear := divide 65535 102500;
         red := divide 0 102500;
         green := divide 1 102500;
         blue := divide 32768 102500 |} |})
  /\ inUnitInterval (divide 65535 102500).
Proof.
  cbv zeta.
  destruct (sample_after_configure_cycles
              (steady x01 [xff; xff; x00; x00; x01; x00; x00; x80])
              (constructed x01 [xff; xff; x00; x00; x01; x00; x00; x80])
              100 x01
              (fun i => nth i [xff; xff; x00; x00; x01; x00; x00; x80] x00))
    as (E & _ & U);
    [lia | reflexivity | reflexivity | reflexivity | reflexivity
    | reflexivity | reflexivity | reflexivity |].
  split; [exact E |]. apply (U ltac:(lia) 0%nat).
Defined.

(** * No rollback inside a call *)

(** Property X27.  Options are applied one after the other and nothing is
    undone when a later one is refused: in a call without gains that
    carries an integration count from 0 to 256 and a low bound outside
    0..0xFFFF, on an open driver whose bus acknowledges, the count is
    stored, the ceiling is set and ATIME is written before the call throws
    [RangeError("invalid alsThresholdLow")]; the flags given by [on] and
    [enableALS] are stored as well, but ENABLE is not written. *)
Theorem configure_applies_before_it_rejects
    (t : Transport) (o : Options.t) (m : Machine) (c l : Z) :
  Options.alsGain o = None -> Options.proximityGain o = None ->
  Options.alsIntegrationCycles o = Some c -> 0 <= c <= 256 ->
  Options.alsThresholdLow o = Some l -> l < 0 \/ 0xFFFF < l ->
  io m = true ->
  acknowledge t (wire m) (WriteUint8 Register.ATIME (256 - c)) = true ->
  let m' := snd (configure t o m) in
  fst (configure t o m) = Thrown (RangeError "invalid alsThresholdLow")
  /\ issued m m' = [WriteUint8 Register.ATIME (256 - c)]
  /\ Configuration.alsIntegrationCycles (configuration m') = c
  /\ maxCount m' = 1025 * c
  /\ Configuration.alsThresholdLow (configuration m')
     = Configuration.alsThresholdLow (configuration m)
  /\ Enabled.PON (Configuration.enabled (configuration m'))
     = match Options.on o with
       | Some v => v
       | None => Enabled.PON (Configuration.enabled (configuration m))
       end
  /\ Enabled.AEN (Configuration.enabled (configuration m'))
     = match Options.enableALS o with
       | Some v => v
       | None => Enabled.AEN (Configuration.enabled (configuration m))
       end.
Proof.
  intros Ha Hp Hc Rc Hl Rl Hio Hack. cbv zeta. run_configure.
  rewrite Ha, Hp, Hc, Hl. simpl.
  replace ((c >? 256) || (c <? 0)) with false by
    (symmetry; apply orb_false_iff; rewrite Z.gtb_ltb, !Z.ltb_ge; lia).
  replace ((l <? 0) || (l >? 65535)) with true by
    (symmetry; apply orb_true_iff; rewrite Z.gtb_ltb, !Z.ltb_lt; lia).
  destruct (Options.enableALS o), (Options.on o); simpl;
    rewrite Hio; simpl; rewrite Hack; simpl;
    repeat split; apply issued_app; reflexivity.
Qed.

Lemma configure_applies_before_it_rejects_witness :
  let t := steady x01 [] in
  let m := constructed x01 [] in
  let o := {| Options.enableALS := Some false; Options.on := None;
              Options.alsIntegrationCycles := Some 72;
              Options.alsGain := None; Options.proximityGain := None;
              Options.alsThresholdHigh := Some 9;
              Options.alsThresholdLow := Some (-5);
              Options.alsThresholdPersistence := None;
              Options.proximityThresholdPersistence := None |} in
  let m' := snd (configure t o m) in
  fst (configure t o m) = Thrown (RangeError "invalid alsThresholdLow")
  /\ issued m m' = [WriteUint8 Register.ATIME 184]
  /\ Configuration.alsIntegrationCycles (configuration m') = 72
  /\ maxCount m' = 73800
  /\ Configuration.alsThresholdLow (configuration m') = Some 0
  /\ Enabled.PON (Configuration.enabled (configuration m')) = true
  /\ Enabled.AEN (Configuration.enabled (configuration m')) = false.
Proof.
  cbv zeta.
  apply (configure_applies_before_it_rejects (steady x01 [])
           {| Options.enableALS := Some false; Options.on := None;
              Options.alsIntegrationCycles := Some 72;
              Options.alsGain := None; Options.proximityGain := None;
              Options.alsThresholdHigh := Some 9;
              Options.alsThresholdLow := Some (-5);
              Options.alsThresholdPersistence := None;
              Options.proximityThresholdPersistence := None |}
           (constructed x01 []) 72 (-5));
    try reflexivity; lia.
Defined.
